(** * The shoe-analysis route handlers (Test-API), embedded and verified

    The repository holds four versions of one Next.js route handler
    [POST] for [/api/analyze-shoe]:

    - [RouteText]    : [route.ts], first version  (free-text answer);
    - [RouteJson]    : [route.ts], second version (structured answer);
    - [RouteCors]    : the structured handler with CORS headers;
    - [RouteContext] : the context-aware handler (temperature, humidity).

    JavaScript strings are sequences of UTF-16 code units; they are
    modelled as lists of code units.  The built-ins the handlers call
    ([String.prototype.trim], [String.prototype.replace] with the two
    regular expressions of the source, [JSON.parse], [Number],
    [Buffer.toString("base64")]) are modelled after ECMA-262.

    A handler is a function of the provider and the request that
    returns the provider calls it made and its response; an [await] is
    plain sequencing, a [throw] is a value of [Except], and the
    diagnostic [console.error] lines are left out.  A response keeps
    the body as the object the handler built; [sent] is what
    [JSON.stringify] makes of it on the way out. *)

From Stdlib Require Import String Ascii List NArith ZArith Bool Lia.
Import ListNotations.
Local Open Scope list_scope.
Local Open Scope N_scope.

(** ** Strings *)

Definition char := N.
Definition jsstring := list char.

Definition code (a : ascii) : char := N_of_ascii a.

(** [lit s] is the ASCII literal [s], one code unit per character. *)
Fixpoint lit (s : string) : jsstring :=
  match s with
  | EmptyString => []
  | String a r => code a :: lit r
  end.

(** [q s] is the literal [s] with every apostrophe read as a double
    quote, for texts that contain double quotes. *)
Definition QUOTE : char := 34.
Definition requote (c : char) : char := if c =? 39 then QUOTE else c.
Definition q (s : string) : jsstring := map requote (lit s).

Fixpoint eqb_str (a b : jsstring) : bool :=
  match a, b with
  | [], [] => true
  | x :: a', y :: b' => (x =? y) && eqb_str a' b'
  | _, _ => false
  end.

(** [strip_prefix p s] is what follows [p] in [s] when [s] starts with [p]. *)
Fixpoint strip_prefix (p s : jsstring) : option jsstring :=
  match p, s with
  | [], _ => Some s
  | a :: p', b :: s' => if a =? b then strip_prefix p' s' else None
  | _ :: _, [] => None
  end.

(** [s.includes(p)] *)
Fixpoint includes (p s : jsstring) : bool :=
  match strip_prefix p s with
  | Some _ => true
  | None => match s with
            | [] => false
            | _ :: r => includes p r
            end
  end.

(** ** White space: ECMA-262 WhiteSpace and LineTerminator.
    [trim] and the regular-expression class [\s] use the same set. *)

Definition spaces : list char :=
  [9; 10; 11; 12; 13; 32; 160; 5760;
   8192; 8193; 8194; 8195; 8196; 8197; 8198; 8199; 8200; 8201; 8202;
   8232; 8233; 8239; 8287; 12288; 65279].

Definition isSpace (c : char) : bool := existsb (N.eqb c) spaces.

(** A run of white space. *)
Definition all_spaces (w : jsstring) : Prop :=
  Forall (fun c => isSpace c = true) w.

Fixpoint trimStart (s : jsstring) : jsstring :=
  match s with
  | [] => []
  | c :: r => if isSpace c then trimStart r else s
  end.

Definition trimEnd (s : jsstring) : jsstring := rev (trimStart (rev s)).

(** [s.trim()] *)
Definition trim (s : jsstring) : jsstring := trimEnd (trimStart s).

(** ** The two fence-stripping replacements *)

Definition FENCE : jsstring := lit "```".
Definition FENCE_JSON : jsstring := lit "```json".

(** [s.replace(/^```json\s*/, '')]: anchored at the start, the greedy
    [\s*] takes the whole run of white space that follows the tag. *)
Definition replace_open (s : jsstring) : jsstring :=
  match strip_prefix FENCE_JSON s with
  | Some r => trimStart r
  | None => s
  end.

(** [/\s*```$/] matches at a position when what is left of the input is
    white space followed by the three backquotes and nothing more. *)
Definition at_close (s : jsstring) : bool := eqb_str (trimStart s) FENCE.

(** [s.replace(/\s*```$/, '')]: the leftmost position that matches is
    replaced; the match always runs to the end of the input. *)
Fixpoint replace_close (s : jsstring) : jsstring :=
  if at_close s then []
  else match s with
       | [] => []
       | c :: r => c :: replace_close r
       end.

(** [generatedText.trim().replace(/^```json\s*/, '').replace(/\s*```$/, '')] *)
Definition cleanText (generatedText : jsstring) : jsstring :=
  replace_close (replace_open (trim generatedText)).

(** ** JSON values

    A number is kept as the exact decimal its literal denotes,
    [mant * 10 ^ expo]; the runtime holds the binary64 nearest to it,
    an infinity when the decimal is out of range.  The handlers test a
    number through [typeof] and through truthiness ([rounds_to_zero]
    below), and they echo it in the response: what is then sent is
    given by [nearest] and [sent] further down. *)

Record Decimal := { mant : Z; expo : Z }.

#[local] Unset Elimination Schemes.
Inductive JSON :=
| JNull
| JBool (b : bool)
| JNumber (d : Decimal)
| JString (s : jsstring)
| JArray (elems : list JSON)
| JObject (members : list (jsstring * JSON)).
#[local] Set Elimination Schemes.

(** The binary64 nearest to [mant * 10 ^ expo] is a zero exactly when
    [|mant * 10 ^ expo| <= 2 ^ -1075] (half of the least subnormal, the
    tie going to the even significand, which is zero). *)
Definition rounds_to_zero (d : Decimal) : bool :=
  ((mant d =? 0)
   || ((expo d <? 0) && (Z.abs (mant d) * 2 ^ 1075 <=? 10 ^ (- expo d))))%Z.

(** Own properties of an object built by [JSON.parse]; a repeated key
    overwrites the value and keeps its place. *)
Fixpoint set_prop (k : jsstring) (v : JSON) (ms : list (jsstring * JSON))
  : list (jsstring * JSON) :=
  match ms with
  | [] => [(k, v)]
  | (k', v') :: r =>
      if eqb_str k k' then (k, v) :: r else (k', v') :: set_prop k v r
  end.

Fixpoint own_prop (k : jsstring) (ms : list (jsstring * JSON)) : option JSON :=
  match ms with
  | [] => None
  | (k', v) :: r => if eqb_str k k' then Some v else own_prop k r
  end.

(** ** [JSON.parse]

    The grammar of ECMA-404 read one code unit at a time by a pushdown
    machine: [stack] holds the arrays and objects that are still open,
    [mode] says what is being read. *)

Module Json.

Inductive Frame :=
| FArr (elems : list JSON)                  (* an open array, last element first *)
| FObj (members : list (jsstring * JSON))   (* an open object *)
| FKey (k : jsstring).                      (* the key whose value is being read *)

Inductive StrState :=
| SChars                       (* between two characters *)
| SEscape                      (* after a backslash *)
| SUnicode (n : nat) (v : N).  (* after \u and n hexadecimal digits *)

Inductive NumPhase :=
| NMinus | NZero | NInt | NDot | NFrac | NE | NESign | NExp.

Record NumAcc := {
  neg : bool;      (* a leading minus *)
  digits : N;      (* the digits of the integer and fraction parts *)
  scale : N;       (* how many of them are fraction digits *)
  eneg : bool;     (* a minus in the exponent *)
  edigits : N      (* the exponent *)
}.

(** The three literal names. *)
Inductive Word := WTrue | WFalse | WNull.

Definition word_text (w : Word) : jsstring :=
  match w with
  | WTrue => lit "true"
  | WFalse => lit "false"
  | WNull => lit "null"
  end.

Definition word_value (w : Word) : JSON :=
  match w with
  | WTrue => JBool true
  | WFalse => JBool false
  | WNull => JNull
  end.

Inductive Mode :=
| MValue                      (* a value must start *)
| MArrOpen                    (* after '[': a value or ']' *)
| MObjOpen                    (* after '{': a key or '}' *)
| MKey                        (* after ',' in an object: a key *)
| MColon (k : jsstring)       (* after a key: ':' *)
| MAfter                      (* after a value in an array or object *)
| MDone (v : JSON)            (* after the value of the whole text *)
| MStr (key : bool) (acc : jsstring) (st : StrState)
| MNum (p : NumPhase) (a : NumAcc)
| MLit (w : Word) (n : nat).   (* inside a literal name, n code units read *)

Record State := { mode : Mode; stack : list Frame }.

Definition st (m : Mode) (k : list Frame) : State := {| mode := m; stack := k |}.

Definition is_ws (c : char) : bool :=
  (c =? 32) || (c =? 9) || (c =? 10) || (c =? 13).

Definition is_digit (c : char) : bool := (48 <=? c) && (c <=? 57).

Definition hexval (c : char) : option N :=
  if (48 <=? c) && (c <=? 57) then Some (c - 48)
  else if (97 <=? c) && (c <=? 102) then Some (c - 87)
  else if (65 <=? c) && (c <=? 70) then Some (c - 55)
  else None.

Definition num_complete (p : NumPhase) : bool :=
  match p with
  | NZero | NInt | NFrac | NExp => true
  | NMinus | NDot | NE | NESign => false
  end.

(** The decimal the literal denotes; the Number that [JSON.parse]
    returns for it is [nearest] of this decimal. *)
Definition num_value (a : NumAcc) : Decimal :=
  {| mant := if neg a then (- Z.of_N (digits a))%Z else Z.of_N (digits a);
     expo := ((if eneg a then - Z.of_N (edigits a) else Z.of_N (edigits a))
              - Z.of_N (scale a))%Z |}.

Definition num0 (sign : bool) (d : N) : NumAcc :=
  {| neg := sign; digits := d; scale := 0; eneg := false; edigits := 0 |}.

Definition add_int (a : NumAcc) (d : N) : NumAcc :=
  {| neg := neg a; digits := digits a * 10 + d; scale := scale a;
     eneg := eneg a; edigits := edigits a |}.

Definition add_frac (a : NumAcc) (d : N) : NumAcc :=
  {| neg := neg a; digits := digits a * 10 + d; scale := scale a + 1;
     eneg := eneg a; edigits := edigits a |}.

Definition add_exp (a : NumAcc) (d : N) : NumAcc :=
  {| neg := neg a; digits := digits a; scale := scale a;
     eneg := eneg a; edigits := edigits a * 10 + d |}.

Definition set_eneg (a : NumAcc) : NumAcc :=
  {| neg := neg a; digits := digits a; scale := scale a;
     eneg := true; edigits := edigits a |}.

(** A value is complete: it is the whole text, an element of the open
    array, or the value of the pending key of the open object. *)
Definition deliver (v : JSON) (k : list Frame) : option State :=
  match k with
  | [] => Some (st (MDone v) [])
  | FArr es :: k' => Some (st MAfter (FArr (v :: es) :: k'))
  | FKey key :: FObj ms :: k' => Some (st MAfter (FObj (set_prop key v ms) :: k'))
  | _ => None
  end.

(** What may follow a complete value. *)
Definition after (s : State) (c : char) : option State :=
  match mode s with
  | MDone _ => if is_ws c then Some s else None
  | MAfter =>
      if is_ws c then Some s
      else match stack s with
           | FArr es :: k' =>
               if c =? 44 then Some (st MValue (stack s))
               else if c =? 93 then deliver (JArray (rev es)) k'
               else None
           | FObj ms :: k' =>
               if c =? 44 then Some (st MKey (stack s))
               else if c =? 125 then deliver (JObject ms) k'
               else None
           | _ => None
           end
  | _ => None
  end.

(** The first code unit of a value. *)
Definition value_start (k : list Frame) (c : char) : option State :=
  if c =? 123 then Some (st MObjOpen (FObj [] :: k))
  else if c =? 91 then Some (st MArrOpen (FArr [] :: k))
  else if c =? QUOTE then Some (st (MStr false [] SChars) k)
  else if c =? 45 then Some (st (MNum NMinus (num0 true 0)) k)
  else if c =? 48 then Some (st (MNum NZero (num0 false 0)) k)
  else if is_digit c then Some (st (MNum NInt (num0 false (c - 48))) k)
  else if c =? 116 then Some (st (MLit WTrue 1) k)
  else if c =? 102 then Some (st (MLit WFalse 1) k)
  else if c =? 110 then Some (st (MLit WNull 1) k)
  else None.

Definition string_end (key : bool) (acc : jsstring) (k : list Frame)
  : option State :=
  if key then Some (st (MColon (rev acc)) k)
  else deliver (JString (rev acc)) k.

Definition string_step (key : bool) (acc : jsstring) (s : StrState)
  (k : list Frame) (c : char) : option State :=
  match s with
  | SChars =>
      if c =? QUOTE then string_end key acc k
      else if c =? 92 then Some (st (MStr key acc SEscape) k)
      else if c <? 32 then None
      else Some (st (MStr key (c :: acc) SChars) k)
  | SEscape =>
      let put x := Some (st (MStr key (x :: acc) SChars) k) in
      if c =? QUOTE then put QUOTE
      else if c =? 92 then put 92
      else if c =? 47 then put 47
      else if c =? 98 then put 8
      else if c =? 102 then put 12
      else if c =? 110 then put 10
      else if c =? 114 then put 13
      else if c =? 116 then put 9
      else if c =? 117 then Some (st (MStr key acc (SUnicode 0 0)) k)
      else None
  | SUnicode n v =>
      match hexval c with
      | None => None
      | Some h =>
          match n with
          | 3%nat => Some (st (MStr key ((v * 16 + h) :: acc) SChars) k)
          | _ => Some (st (MStr key acc (SUnicode (S n) (v * 16 + h))) k)
          end
      end
  end.

Definition number_end (a : NumAcc) (k : list Frame) (c : char) : option State :=
  match deliver (JNumber (num_value a)) k with
  | Some s => after s c
  | None => None
  end.

Definition number_step (p : NumPhase) (a : NumAcc) (k : list Frame) (c : char)
  : option State :=
  let go p' a' := Some (st (MNum p' a') k) in
  let is_e := (c =? 101) || (c =? 69) in
  match p with
  | NMinus =>
      if c =? 48 then go NZero a
      else if is_digit c then go NInt (add_int a (c - 48))
      else None
  | NZero =>
      if c =? 46 then go NDot a
      else if is_e then go NE a
      else number_end a k c
  | NInt =>
      if is_digit c then go NInt (add_int a (c - 48))
      else if c =? 46 then go NDot a
      else if is_e then go NE a
      else number_end a k c
  | NDot =>
      if is_digit c then go NFrac (add_frac a (c - 48)) else None
  | NFrac =>
      if is_digit c then go NFrac (add_frac a (c - 48))
      else if is_e then go NE a
      else number_end a k c
  | NE =>
      if c =? 43 then go NESign a
      else if c =? 45 then go NESign (set_eneg a)
      else if is_digit c then go NExp (add_exp a (c - 48))
      else None
  | NESign =>
      if is_digit c then go NExp (add_exp a (c - 48)) else None
  | NExp =>
      if is_digit c then go NExp (add_exp a (c - 48))
      else number_end a k c
  end.

Definition step (s : State) (c : char) : option State :=
  let k := stack s in
  match mode s with
  | MValue => if is_ws c then Some s else value_start k c
  | MArrOpen =>
      if is_ws c then Some s
      else if c =? 93 then
        match k with
        | FArr _ :: k' => deliver (JArray []) k'
        | _ => None
        end
      else value_start k c
  | MObjOpen =>
      if is_ws c then Some s
      else if c =? 125 then
        match k with
        | FObj _ :: k' => deliver (JObject []) k'
        | _ => None
        end
      else if c =? QUOTE then Some (st (MStr true [] SChars) k)
      else None
  | MKey =>
      if is_ws c then Some s
      else if c =? QUOTE then Some (st (MStr true [] SChars) k)
      else None
  | MColon key =>
      if is_ws c then Some s
      else if c =? 58 then Some (st MValue (FKey key :: k))
      else None
  | MAfter | MDone _ => after s c
  | MStr key acc s' => string_step key acc s' k c
  | MNum p a => number_step p a k c
  | MLit w n =>
      match nth_error (word_text w) n with
      | Some x =>
          if c =? x then
            if Nat.eqb (S n) (length (word_text w))
            then deliver (word_value w) k
            else Some (st (MLit w (S n)) k)
          else None
      | None => None
      end
  end.

Fixpoint run (s : State) (text : jsstring) : option State :=
  match text with
  | [] => Some s
  | c :: r => match step s c with
              | Some s' => run s' r
              | None => None
              end
  end.

(** At the end of the text: a complete value and nothing open. *)
Definition finish (s : State) : option JSON :=
  match mode s, stack s with
  | MDone v, [] => Some v
  | MNum p a, [] => if num_complete p then Some (JNumber (num_value a)) else None
  | _, _ => None
  end.

Definition init : State := st MValue [].

(** [JSON.parse(text)]; [None] stands for the [SyntaxError] it throws. *)
Definition parse (text : jsstring) : option JSON :=
  match run init text with
  | Some s => finish s
  | None => None
  end.

End Json.

Definition JSON_parse : jsstring -> option JSON := Json.parse.

(** ** [Number(value)] on a form entry

    ECMA-262 StringToNumber: white space around a StrNumericLiteral; the
    empty text is [+0]; anything else that is not a literal is [NaN]. *)

(** A Number: [Finite d] stands for the binary64 nearest to the decimal
    [d] (an infinity when [d] is out of range); none of them is [NaN]. *)
Inductive JSNumber :=
| NaN
| Infinity (negative : bool)
| Finite (d : Decimal).

Definition isNaN (n : JSNumber) : bool :=
  match n with
  | NaN => true
  | _ => false
  end.

Definition integer (n : N) : JSNumber := Finite {| mant := Z.of_N n; expo := 0 |}.

Module StringToNumber.

Fixpoint span_digits (s : jsstring) : jsstring * jsstring :=
  match s with
  | [] => ([], [])
  | c :: r =>
      if Json.is_digit c
      then let (d, t) := span_digits r in (c :: d, t)
      else ([], s)
  end.

Definition digits_value (ds : jsstring) : N :=
  fold_left (fun a c => a * 10 + (c - 48)) ds 0.

(** ExponentPart, which must end the literal; absent, it is zero. *)
Definition exponent_part (s : jsstring) : option Z :=
  match s with
  | [] => Some 0%Z
  | c :: r =>
      if (c =? 101) || (c =? 69) then
        let '(minus, r') :=
          match r with
          | x :: r1 =>
              if x =? 43 then (false, r1)
              else if x =? 45 then (true, r1)
              else (false, r)
          | [] => (false, r)
          end in
        match span_digits r' with
        | ((_ :: _) as ds, []) =>
            let e := Z.of_N (digits_value ds) in
            Some (if minus then (- e)%Z else e)
        | _ => None
        end
      else None
  end.

(** StrUnsignedDecimalLiteral *)
Definition unsigned_decimal (s : jsstring) : option JSNumber :=
  if eqb_str s (lit "Infinity") then Some (Infinity false)
  else
    let (ip, r) := span_digits s in
    let finite (ds fs : jsstring) (tail : jsstring) :=
      match exponent_part tail with
      | Some e =>
          Some (Finite {| mant := Z.of_N (digits_value (ds ++ fs));
                          expo := (e - Z.of_nat (length fs))%Z |})
      | None => None
      end in
    match r with
    | c :: r1 =>
        if c =? 46 then
          let (fp, r2) := span_digits r1 in
          match ip, fp with
          | [], [] => None
          | _, _ => finite ip fp r2
          end
        else match ip with
             | [] => None
             | _ => finite ip [] r
             end
    | [] => match ip with
            | [] => None
            | _ => finite ip [] []
            end
    end.

Definition negate (n : JSNumber) : JSNumber :=
  match n with
  | NaN => NaN
  | Infinity s => Infinity (negb s)
  | Finite d => Finite {| mant := (- mant d)%Z; expo := expo d |}
  end.

(** StrDecimalLiteral: an optional sign before the unsigned literal. *)
Definition decimal (s : jsstring) : option JSNumber :=
  match s with
  | c :: r =>
      if c =? 43 then unsigned_decimal r
      else if c =? 45 then option_map negate (unsigned_decimal r)
      else unsigned_decimal s
  | [] => None
  end.

Fixpoint radix_value (b acc : N) (s : jsstring) : option N :=
  match s with
  | [] => Some acc
  | c :: r =>
      match Json.hexval c with
      | Some h => if h <? b then radix_value b (acc * b + h) r else None
      | None => None
      end
  end.

(** NonDecimalIntegerLiteral: 0x, 0o and 0b, never signed. *)
Definition non_decimal (s : jsstring) : option JSNumber :=
  match s with
  | z :: x :: ((_ :: _) as ds) =>
      if z =? 48 then
        let base :=
          if (x =? 120) || (x =? 88) then Some 16
          else if (x =? 111) || (x =? 79) then Some 8
          else if (x =? 98) || (x =? 66) then Some 2
          else None in
        match base with
        | Some b => option_map integer (radix_value b 0 ds)
        | None => None
        end
      else None
  | _ => None
  end.

Definition convert (s : jsstring) : JSNumber :=
  match trim s with
  | [] => integer 0
  | t =>
      match non_decimal t with
      | Some n => n
      | None => match decimal t with
                | Some n => n
                | None => NaN
                end
      end
  end.

End StringToNumber.

(** ** [Buffer.toString("base64")] *)

Module Base64.

Definition digit (n : N) : char :=
  if n <? 26 then 65 + n
  else if n <? 52 then 97 + (n - 26)
  else if n <? 62 then 48 + (n - 52)
  else if n =? 62 then 43
  else 47.

Fixpoint encode (bs : list N) : jsstring :=
  match bs with
  | [] => []
  | [a] => [digit (a / 4); digit (a mod 4 * 16); 61; 61]
  | [a; b] =>
      [digit (a / 4); digit (a mod 4 * 16 + b / 16); digit (b mod 16 * 4); 61]
  | a :: b :: c :: r =>
      digit (a / 4) :: digit (a mod 4 * 16 + b / 16)
        :: digit (b mod 16 * 4 + c / 64) :: digit (c mod 64) :: encode r
  end.

End Base64.

(** ** The request: the multipart form the framework decoded *)

Record File := {
  name : jsstring;
  type : jsstring;       (* the declared media type, empty when none *)
  bytes : list N         (* what [arrayBuffer()] gives *)
}.

Definition size (f : File) : N := N.of_nat (length (bytes f)).

Inductive FormDataEntryValue :=
| EntryString (s : jsstring)
| EntryFile (f : File).

Definition FormData := list (jsstring * FormDataEntryValue).

(** [formData.get(key)]: the first entry of that name, [null] when none. *)
Fixpoint formData_get (key : jsstring) (fd : FormData)
  : option FormDataEntryValue :=
  match fd with
  | [] => None
  | (k, v) :: r => if eqb_str key k then Some v else formData_get key r
  end.

(** What a [throw] carries, as far as the outer [catch] looks at it. *)
Inductive Thrown :=
| ErrorObject (message : jsstring)
| OtherValue.

Inductive Except (A : Type) :=
| Returns (a : A)
| Throws (e : Thrown).
Arguments Returns {A} a.
Arguments Throws {A} e.

(** [request.formData()] throws when the body is not a form. *)
Record Request := { formData : Except FormData }.

(** [Number(raw)] for a form entry: a file converts to the text
    "[object File]", which is no numeric literal. *)
Definition Number (raw : FormDataEntryValue) : JSNumber :=
  match raw with
  | EntryString s => StringToNumber.convert s
  | EntryFile _ => NaN
  end.

(** Truthiness of [formData.get(key)]: [null] and the empty text are falsy. *)
Definition entry_truthy (raw : option FormDataEntryValue) : bool :=
  match raw with
  | None | Some (EntryString []) => false
  | Some _ => true
  end.

(** ** The provider: [ai.models.generateContent] *)

(** The instruction text, in pieces: source text (kept as the bytes of
    the source file), a line feed, a double quote, and a number that a
    template literal interpolates. *)
Inductive PromptPiece :=
| Txt (s : string)
| NL
| DQ
| Interp (n : JSNumber).

Definition Prompt := list PromptPiece.

Inductive Part :=
| TextPart (text : Prompt)
| InlineData (data mimeType : jsstring).

Record Content := { role : jsstring; parts : list Part }.

Record GenerateContentParameters := {
  model : jsstring;
  contents : list Content
}.

(** The reply, with the fields the handlers read. *)
Record ReplyPart := { text : option jsstring }.
Record ReplyContent := { reply_parts : option (list ReplyPart) }.
Record Candidate := { content : option ReplyContent }.
Record PromptFeedback := {
  blockReason : option jsstring;
  safetyRatings : option JSON
}.
Record GenerateContentResponse := {
  candidates : option (list Candidate);
  promptFeedback : option PromptFeedback
}.

Definition Provider := GenerateContentParameters -> Except GenerateContentResponse.

(** [response.candidates?.[0]?.content?.parts?.[0]?.text] *)
Definition firstText (response : GenerateContentResponse) : option jsstring :=
  match candidates response with
  | Some (candidate :: _) =>
      match content candidate with
      | Some c =>
          match reply_parts c with
          | Some (p :: _) => text p
          | _ => None
          end
      | None => None
      end
  | _ => None
  end.

Definition fileToGenerativePart (file : File) : Part :=
  InlineData (Base64.encode (bytes file))
             (match type file with
              | [] => lit "image/jpeg"
              | t => t
              end).

Definition MODEL : jsstring := lit "gemini-2.5-flash".

Definition request_for (prompt : Prompt) (imageFile : File)
  : GenerateContentParameters :=
  {| model := MODEL;
     contents := [ {| role := lit "user";
                      parts := [TextPart prompt; fileToGenerativePart imageFile] |} ] |}.

(** ** The response: [NextResponse.json(body, { status, headers })] *)

Inductive Value :=
| VUndefined
| VString (s : jsstring)
| VNumber (n : JSNumber)
| VJson (j : JSON)                          (* a value taken from parsed JSON *)
| VResponse (r : GenerateContentResponse).

Record NextResponse := {
  status : N;
  headers : list (string * string);
  body : list (string * Value)
}.

(** [json] records what the handler hands to [NextResponse.json]: the
    body is the object as the handler built it.  The text that goes
    out is [JSON.stringify] of that object; see [sent]. *)
Definition json (b : list (string * Value)) (code : N)
  (h : list (string * string)) : NextResponse :=
  {| status := code; headers := h; body := b |}.

Fixpoint lookup (k : string) (b : list (string * Value)) : option Value :=
  match b with
  | [] => None
  | (k', v) :: r => if String.eqb k k' then Some v else lookup k r
  end.

Definition field (k : string) (r : NextResponse) : option Value :=
  lookup k (body r).

Definition of_optional (v : option JSON) : Value :=
  match v with
  | Some j => VJson j
  | None => VUndefined
  end.

(** ** What is sent: [JSON.stringify] of the body

    [NextResponse.json] sends the text [JSON.stringify(body)].  [sent]
    is the JSON value that text denotes, as a client reads it back: a
    member whose value is [undefined] is left out, a Number is written
    as the binary64 it is when that is finite and as [null] when it is
    an infinity or NaN, and the members of an object come in the order
    of its own keys (array indices first, ascending, then the other keys
    as created). *)

(** A finite binary64, [significand * 2 ^ exponent], with
    [2 ^ 52 <= |significand| < 2 ^ 53] and [-1074 <= exponent <= 971],
    or [|significand| < 2 ^ 52] and [exponent = -1074]; zero is
    [0 * 2 ^ 0] (the sign of a zero is not kept: both are written 0). *)
Record Binary64 := { significand : Z; exponent : Z }.

(** [n / d] rounded to the nearest integer, a tie going to the even one
    ([0 <= n], [0 < d]). *)
Definition div_half_even (n d : Z) : Z :=
  (let q := n / d in
   match 2 * (n mod d) ?= d with
   | Lt => q
   | Gt => q + 1
   | Eq => if Z.even q then q else q + 1
   end)%Z.

(** The Number value for a decimal: the binary64 nearest to it, ties to
    even; [None] when that is an infinity.  (This is the correctly
    rounded value, which the engine computes for every literal;
    ECMA-262 would also allow the neighbour for a literal of more than
    20 significant digits.) *)
Definition nearest (x : Decimal) : option Binary64 :=
  (let a := Z.abs (mant x) in
   if a =? 0 then Some {| significand := 0; exponent := 0 |}
   else
     let n := if expo x <? 0 then a else a * 10 ^ expo x in
     let d := if expo x <? 0 then 10 ^ (- expo x) else 1 in
     let k := Z.log2 n - Z.log2 d in
     let below := if k <? 0 then n * 2 ^ (- k) <? d else n <? d * 2 ^ k in
     let e0 := if below then k - 1 else k in
     let e := Z.max (e0 - 52) (-1074) in
     let s := if e <? 0 then div_half_even (n * 2 ^ (- e)) d
              else div_half_even n (d * 2 ^ e) in
     let s' := if s =? 2 ^ 53 then 2 ^ 52 else s in
     let e' := if s =? 2 ^ 53 then e + 1 else e in
     if s' =? 0 then Some {| significand := 0; exponent := 0 |}
     else if 971 <? e' then None
     else Some {| significand := if mant x <? 0 then - s' else s';
                  exponent := e' |})%Z.

#[local] Unset Elimination Schemes.
Inductive Wire :=
| WNull
| WBool (b : bool)
| WNumber (x : Binary64)
| WString (s : jsstring)
| WArray (elems : list Wire)
| WObject (members : list (jsstring * Wire))
| WReply (r : GenerateContentResponse).  (* the provider's reply, as written *)
#[local] Set Elimination Schemes.

Definition write_decimal (d : Decimal) : Wire :=
  match nearest d with
  | Some x => WNumber x
  | None => WNull
  end.

(** [JSON.stringify] of a Number. *)
Definition write_number (n : JSNumber) : Wire :=
  match n with
  | NaN | Infinity _ => WNull
  | Finite d => write_decimal d
  end.

(** An array index: the canonical decimal text of an integer below
    [2 ^ 32 - 1]. *)
Definition array_index (k : jsstring) : option N :=
  match k with
  | [] => None
  | c :: r =>
      if forallb Json.is_digit k
         && (negb (c =? 48) || match r with [] => true | _ => false end)
      then
        let i := StringToNumber.digits_value k in
        if i <? 4294967295 then Some i else None
      else None
  end.

Fixpoint insert_by_index {A : Type} (i : N) (x : A) (l : list (N * A))
  : list (N * A) :=
  match l with
  | [] => [(i, x)]
  | (j, y) :: r =>
      if i <? j then (i, x) :: l else (j, y) :: insert_by_index i x r
  end.

(** The order in which the own keys of an object are listed. *)
Definition own_keys_order {A : Type} (ms : list (jsstring * A))
  : list (jsstring * A) :=
  map snd
      (fold_left (fun acc kv => match array_index (fst kv) with
                                | Some i => insert_by_index i kv acc
                                | None => acc
                                end) ms [])
  ++ filter (fun kv => match array_index (fst kv) with
                       | Some _ => false
                       | None => true
                       end) ms.

(** [JSON.stringify] of a value that [JSON.parse] built. *)
Fixpoint wire (j : JSON) : Wire :=
  match j with
  | JNull => WNull
  | JBool b => WBool b
  | JNumber d => write_decimal d
  | JString s => WString s
  | JArray elems => WArray (map wire elems)
  | JObject members =>
      WObject (own_keys_order (map (fun kv => (fst kv, wire (snd kv))) members))
  end.

(** [JSON.stringify] of a member's value; [None] when the member is
    left out. *)
Definition serialize (v : Value) : option Wire :=
  match v with
  | VUndefined => None
  | VString s => Some (WString s)
  | VNumber n => Some (write_number n)
  | VJson j => Some (wire j)
  | VResponse r => Some (WReply r)
  end.

Fixpoint serialize_members (b : list (string * Value)) : list (string * Wire) :=
  match b with
  | [] => []
  | (k, v) :: r =>
      match serialize v with
      | Some w => (k, w) :: serialize_members r
      | None => serialize_members r
      end
  end.

(** The body a client receives. *)
Definition sent (r : NextResponse) : list (string * Wire) :=
  serialize_members (body r).

Fixpoint sent_lookup (k : string) (b : list (string * Wire)) : option Wire :=
  match b with
  | [] => None
  | (k', w) :: r => if String.eqb k k' then Some w else sent_lookup k r
  end.

Definition sent_field (k : string) (r : NextResponse) : option Wire :=
  sent_lookup k (sent r).

(** What a handler did: the provider calls it made, then its response. *)
Record Outcome := {
  calls : list GenerateContentParameters;
  response : NextResponse
}.

Definition corsHeaders : list (string * string) :=
  [("Access-Control-Allow-Origin", "*");
   ("Access-Control-Allow-Methods", "POST, OPTIONS");
   ("Access-Control-Allow-Headers", "Content-Type, Authorization")]%string.

(** [error instanceof Error ? error.message : fallback] *)
Definition message_of (e : Thrown) (fallback : jsstring) : jsstring :=
  match e with
  | ErrorObject m => m
  | OtherValue => fallback
  end.

(** ** Normalization of the provider's text (the inner [try] block) *)

Definition SHOE_TYPE : jsstring := lit "shoe_type".
Definition MINUTES : jsstring := lit "recommended_time_minutes".

(** [analysisObject.key] for the two keys above, which no prototype
    defines: an own property of an object, [undefined] on any other
    value.  (Reading a property of [null] throws; see [parseAnalysis].) *)
Definition prop (analysisObject : JSON) (key : jsstring) : option JSON :=
  match analysisObject with
  | JObject ms => own_prop key ms
  | _ => None
  end.

Definition truthy (v : option JSON) : bool :=
  match v with
  | None | Some JNull => false
  | Some (JBool b) => b
  | Some (JNumber d) => negb (rounds_to_zero d)
  | Some (JString s) => match s with [] => false | _ => true end
  | Some (JArray _) | Some (JObject _) => true
  end.

Definition typeof_number (v : option JSON) : bool :=
  match v with
  | Some (JNumber _) => true
  | _ => false
  end.

(** The [try] block: [Some analysisObject] when it runs to its end,
    [None] when [JSON.parse], the property read or the check throws. *)
Definition parseAnalysis (generatedText : jsstring) : option JSON :=
  match JSON_parse (cleanText generatedText) with
  | None => None
  | Some JNull => None
  | Some analysisObject =>
      if negb (truthy (prop analysisObject SHOE_TYPE))
         || negb (typeof_number (prop analysisObject MINUTES))
      then None
      else Some analysisObject
  end.

Definition done (r : NextResponse) : Outcome := {| calls := []; response := r |}.

Definition MISSING_FILE : jsstring :=
  q "Invalid or missing file upload (expecting field name 'file').".
Definition EMPTY_FILE : jsstring := lit "Uploaded file is empty.".

(** ** [route.ts], first version: the free-text handler *)

Module RouteText.

Definition PROMPT : Prompt :=
  [Txt "อยากให้ช่วย suggest เวลาที่แนะนำในการเป่าแห้งรองเท้า โดยสมมติว่าเราคือตู้อบรองเท้าสาธารณะ ";
   Txt "ที่ทำการเป่าแห้งรองเท้าด้วยพัดลมความร้อน (พัดลม + ฮีตเตอร์) โดยตั้งสมมติฐานว่า ความร้อนไม่สูงเกินไป (40–55°C) ";
   Txt "และเวลาอบไม่ควรเกิน 1 ชั่วโมง เพื่อลดความเสี่ยงรองเท้าเสียหาย"; NL; NL;
   Txt "ส่วน output อยากให้รีเทินออกมาเป็น ประเภทของรองเท้า + คำอธิบายสั้นๆ ก่อน จากนั้นค่อยตามด้วยระยะเวลาที่แนะนำ"; NL; NL;
   Txt "ตัวอย่าง output เช่น"; NL;
   Txt "รองเท้าผ้าใบ (ประเภท Sneakers) ความหนาปานกลาง"; NL;
   Txt "เวลาที่แนะนำ: 40 นาที"].

Definition caught (e : Thrown) : NextResponse :=
  json [("error", VString (lit "Failed to process the request due to an internal server error."));
        ("details", VString (message_of e (lit "An unknown error occurred.")))]%string
       500 [].

(** From the provider's reply to the response. *)
Definition answer (imageFile : File) (response : GenerateContentResponse)
  : NextResponse :=
  match firstText response with
  | Some ((_ :: _) as generatedText) =>
      json [("filename", VString (name imageFile));
            ("filesize", VNumber (integer (size imageFile)));
            ("gemini_analysis", VString (trim generatedText));
            ("model_used", VString MODEL)]%string
           200 []
  | _ =>
      match promptFeedback response with
      | Some {| blockReason := Some ((_ :: _) as reason); safetyRatings := ratings |} =>
          json [("error", VString (lit "Content was blocked due to safety settings: " ++ reason)%list);
                ("safety_ratings", of_optional ratings)]%string
               403 []
      | _ =>
          json [("error", VString (lit "Gemini did not return any text output or the response structure was unexpected."));
                ("full_response_debug", VResponse response)]%string
               500 []
      end
  end.

Definition POST (generateContent : Provider) (request : Request) : Outcome :=
  match formData request with
  | Throws e => done (caught e)
  | Returns fd =>
      match formData_get (lit "file") fd with
      | None | Some (EntryString _) =>
          done (json [("error", VString MISSING_FILE)]%string 400 [])
      | Some (EntryFile imageFile) =>
          if size imageFile =? 0
          then done (json [("error", VString EMPTY_FILE)]%string 400 [])
          else
            let params := request_for PROMPT imageFile in
            {| calls := [params];
               response := match generateContent params with
                           | Returns response => answer imageFile response
                           | Throws e => caught e
                           end |}
      end
  end.

End RouteText.

(** ** [route.ts], second version: the structured handler *)

Module RouteJson.

Definition PROMPT : Prompt :=
  [Txt "คุณคือระบบวิเคราะห์ภาพรองเท้าและแนะนำเวลาการเป่าแห้ง โปรดวิเคราะห์ภาพรองเท้าและให้ข้อมูลออกมาในรูปแบบ JSON Object เท่านั้น ";
   Txt "โดยให้มีโครงสร้างดังนี้:"; NL;
   Txt "1. 'shoe_type': ประเภทของรองเท้าและคำอธิบายสั้นๆ (เช่น 'รองเท้าผ้าใบ (ประเภท Sneakers) ความหนาปานกลาง')"; NL;
   Txt "2. 'recommended_time_minutes': เวลาที่แนะนำในการเป่าแห้ง (เป็นตัวเลขหน่วยนาที ไม่เกิน 60)"; NL;
   Txt "เงื่อนไขการอบ: ตู้อบสาธารณะ, พัดลมความร้อน (40–55°C), ห้ามเกิน 60 นาที"; NL; NL;
   Txt "**สำคัญ: Output ต้องเป็น JSON Object ที่ถูกต้องเท่านั้น ไม่มีข้อความอธิบายใด ๆ เพิ่มเติมก่อนหรือหลัง**"; NL;
   Txt "ตัวอย่าง Output:"; NL;
   Txt "{"; DQ; Txt "shoe_type"; DQ; Txt ": "; DQ; Txt "รองเท้าผ้าใบ (ประเภท Sneakers) ความหนาปานกลาง"; DQ; Txt ", "; DQ; Txt "recommended_time_minutes"; DQ; Txt ": 40}"].

Definition caught (e : Thrown) : NextResponse :=
  json [("error", VString (lit "Failed to process the request due to an internal server error."));
        ("details", VString (message_of e (lit "An unknown error occurred.")))]%string
       500 [].

Definition answer (imageFile : File) (response : GenerateContentResponse)
  : NextResponse :=
  match firstText response with
  | Some ((_ :: _) as generatedText) =>
      match parseAnalysis generatedText with
      | None =>
          json [("error", VString (lit "Analysis successful but failed to parse JSON output from Gemini. Check prompt compliance."));
                ("gemini_raw_output", VString generatedText)]%string
               500 []
      | Some analysisObject =>
          json [("filename", VString (name imageFile));
                ("filesize", VNumber (integer (size imageFile)));
                ("shoe_type", of_optional (prop analysisObject SHOE_TYPE));
                ("recommended_time_minutes", of_optional (prop analysisObject MINUTES));
                ("model_used", VString MODEL)]%string
               200 []
      end
  | _ =>
      match promptFeedback response with
      | Some {| blockReason := Some ((_ :: _) as reason); safetyRatings := ratings |} =>
          json [("error", VString (lit "Content was blocked due to safety settings: " ++ reason)%list);
                ("safety_ratings", of_optional ratings)]%string
               403 []
      | _ =>
          json [("error", VString (lit "Gemini did not return any text output or the response structure was unexpected."));
                ("full_response_debug", VResponse response)]%string
               500 []
      end
  end.

Definition POST (generateContent : Provider) (request : Request) : Outcome :=
  match formData request with
  | Throws e => done (caught e)
  | Returns fd =>
      match formData_get (lit "file") fd with
      | None | Some (EntryString _) =>
          done (json [("error", VString MISSING_FILE)]%string 400 [])
      | Some (EntryFile imageFile) =>
          if size imageFile =? 0
          then done (json [("error", VString EMPTY_FILE)]%string 400 [])
          else
            let params := request_for PROMPT imageFile in
            {| calls := [params];
               response := match generateContent params with
                           | Returns response => answer imageFile response
                           | Throws e => caught e
                           end |}
      end
  end.

End RouteJson.

(** ** The structured handler with CORS headers *)

Module RouteCors.

(** [OPTIONS()] *)
Definition OPTIONS : NextResponse := json [] 200 corsHeaders.

Definition PROMPT : Prompt :=
  [Txt "คุณคือระบบวิเคราะห์ภาพรองเท้าและแนะนำเวลาการเป่าแห้ง โปรดวิเคราะห์ภาพรองเท้าและให้ข้อมูลออกมาในรูปแบบ JSON Object เท่านั้น ";
   Txt "โดยให้มีโครงสร้างดังนี้:"; NL;
   Txt "1. 'shoe_type': ประเภทของรองเท้าและคำอธิบายสั้นๆ (เช่น 'รองเท้าผ้าใบ (ประเภท Sneakers) ความหนาปานกลาง')"; NL;
   Txt "2. 'recommended_time_minutes': เวลาที่แนะนำในการเป่าแห้ง (เป็นตัวเลขหน่วยนาที ไม่เกิน 60)"; NL;
   Txt "เงื่อนไขการอบ: ตู้อบสาธารณะ, พัดลมความร้อน (40–55°C), ห้ามเกิน 60 นาที"; NL; NL;
   Txt "**สำคัญ: Output ต้องเป็น JSON Object ที่ถูกต้องเท่านั้น ไม่มีข้อความอธิบายใด ๆ เพิ่มเติมก่อนหรือหลัง**"; NL;
   Txt "ตัวอย่าง Output:"; NL;
   Txt "{"; DQ; Txt "shoe_type"; DQ; Txt ": "; DQ; Txt "รองเท้าผ้าใบ (ประเภท Sneakers) ความหนาปานกลาง"; DQ; Txt ", "; DQ; Txt "recommended_time_minutes"; DQ; Txt ": 40}"].

Definition caught (e : Thrown) : NextResponse :=
  json [("error", VString (lit "Failed to process the request due to an internal server error."));
        ("details", VString (message_of e (lit "An unknown error occurred.")))]%string
       500 corsHeaders.

Definition answer (imageFile : File) (response : GenerateContentResponse)
  : NextResponse :=
  match firstText response with
  | Some ((_ :: _) as generatedText) =>
      match parseAnalysis generatedText with
      | None =>
          json [("error", VString (lit "Analysis successful but failed to parse JSON output from Gemini. Check prompt compliance."));
                ("gemini_raw_output", VString generatedText)]%string
               500 corsHeaders
      | Some analysisObject =>
          json [("filename", VString (name imageFile));
                ("filesize", VNumber (integer (size imageFile)));
                ("shoe_type", of_optional (prop analysisObject SHOE_TYPE));
                ("recommended_time_minutes", of_optional (prop analysisObject MINUTES));
                ("model_used", VString MODEL)]%string
               200 corsHeaders
      end
  | _ =>
      match promptFeedback response with
      | Some {| blockReason := Some ((_ :: _) as reason); safetyRatings := ratings |} =>
          json [("error", VString (lit "Content was blocked due to safety settings: " ++ reason)%list);
                ("safety_ratings", of_optional ratings)]%string
               403 corsHeaders
      | _ =>
          json [("error", VString (lit "Gemini did not return any text output or the response structure was unexpected."));
                ("full_response_debug", VResponse response)]%string
               500 corsHeaders
      end
  end.

Definition POST (generateContent : Provider) (request : Request) : Outcome :=
  match formData request with
  | Throws e => done (caught e)
  | Returns fd =>
      match formData_get (lit "file") fd with
      | None | Some (EntryString _) =>
          done (json [("error", VString MISSING_FILE)]%string 400 corsHeaders)
      | Some (EntryFile imageFile) =>
          if size imageFile =? 0
          then done (json [("error", VString EMPTY_FILE)]%string 400 corsHeaders)
          else
            let params := request_for PROMPT imageFile in
            {| calls := [params];
               response := match generateContent params with
                           | Returns response => answer imageFile response
                           | Throws e => caught e
                           end |}
      end
  end.

End RouteCors.

(** ** The context-aware handler *)

Module RouteContext.

Definition OPTIONS : NextResponse := json [] 200 corsHeaders.

Definition buildPrompt (temp humidity : JSNumber) : Prompt :=
  [Txt "คุณคือระบบวิเคราะห์ภาพรองเท้าและแนะนำเวลาการเป่าแห้ง โดยต้องพิจารณาทั้งรูปภาพรองเท้า ";
   Txt "รวมถึงข้อมูลความชื้นและอุณหภูมิที่ผู้ใช้ส่งมาให้ด้วย โปรดให้คำตอบในรูปแบบ JSON Object เท่านั้น"; NL; NL;
   Txt "ความชื้นปัจจุบัน (humidity): "; Interp humidity; Txt "%"; NL;
   Txt "อุณหภูมิ (temperature): "; Interp temp; Txt "°C"; NL; NL;
   Txt "หลักการคำนวณ:"; NL;
   Txt "• รองเท้าประเภทเดียวกันอาจมีเวลามาตรฐาน เช่น Sneakers เฉลี่ย 30 นาที"; NL;
   Txt "• หากความชื้นสูง (เช่น >70%) ให้เพิ่มเวลาอบตามความเหมาะสม"; NL;
   Txt "• แต่เวลาอบรวมต้องไม่เกิน 60 นาที"; NL;
   Txt "• ตู้อบ: ใช้พัดลมความร้อน 40–55°C"; NL; NL;
   Txt "รูปแบบ Output:"; NL;
   Txt "1. 'shoe_type': ประเภทของรองเท้า พร้อมคำอธิบายสั้นๆ"; NL;
   Txt "2. 'recommended_time_minutes': เวลาที่แนะนำ (ตัวเลข นาที ไม่เกิน 60)"; NL; NL;
   Txt "**สำคัญ: ให้ตอบเป็น JSON Object เท่านั้น ไม่มีข้อความอื่นเพิ่มเติม**"; NL;
   Txt "ตัวอย่าง Output:"; NL;
   Txt "{"; DQ; Txt "shoe_type"; DQ; Txt ": "; DQ; Txt "รองเท้าผ้าใบ (Sneakers)"; DQ; Txt ", "; DQ; Txt "recommended_time_minutes"; DQ; Txt ": 40}"].

Definition BOTH_NUMERIC : jsstring :=
  lit "Missing or invalid humidity/temperature. Both must be numeric.".

Definition caught (e : Thrown) : NextResponse :=
  json [("error", VString (lit "Internal server error occurred while processing your request."));
        ("details", VString (message_of e (lit "Unknown error.")))]%string
       500 corsHeaders.

(** [raw ? Number(raw) : undefined] *)
Definition optional_number (raw : option FormDataEntryValue) : option JSNumber :=
  match raw with
  | Some v => if entry_truthy raw then Some (Number v) else None
  | None => None
  end.

Definition answer (imageFile : File) (temperature humidity : JSNumber)
  (response : GenerateContentResponse) : NextResponse :=
  match firstText response with
  | Some ((_ :: _) as generatedText) =>
      match parseAnalysis generatedText with
      | None =>
          json [("error", VString (lit "Analysis succeeded but the JSON response from Gemini could not be parsed."));
                ("gemini_raw_output", VString generatedText)]%string
               500 corsHeaders
      | Some analysisObject =>
          json [("filename", VString (name imageFile));
                ("filesize", VNumber (integer (size imageFile)));
                ("shoe_type", of_optional (prop analysisObject SHOE_TYPE));
                ("recommended_time_minutes", of_optional (prop analysisObject MINUTES));
                ("temperature", VNumber temperature);
                ("humidity", VNumber humidity);
                ("model_used", VString MODEL)]%string
               200 corsHeaders
      end
  | _ =>
      match promptFeedback response with
      | Some {| blockReason := Some ((_ :: _) as reason); safetyRatings := ratings |} =>
          json [("error", VString (lit "Content blocked due to safety settings: " ++ reason)%list);
                ("safety_ratings", of_optional ratings)]%string
               403 corsHeaders
      | _ =>
          json [("error", VString (lit "Gemini did not return valid text. See debug info."));
                ("full_response_debug", VResponse response)]%string
               500 corsHeaders
      end
  end.

Definition POST (generateContent : Provider) (request : Request) : Outcome :=
  match formData request with
  | Throws e => done (caught e)
  | Returns fd =>
      match formData_get (lit "file") fd with
      | None | Some (EntryString _) =>
          done (json [("error", VString MISSING_FILE)]%string 400 corsHeaders)
      | Some (EntryFile imageFile) =>
          if size imageFile =? 0
          then done (json [("error", VString EMPTY_FILE)]%string 400 corsHeaders)
          else
            let humidityRaw := formData_get (lit "humidity") fd in
            let tempRaw := formData_get (lit "temperature") fd in
            match optional_number humidityRaw, optional_number tempRaw with
            | Some humidity, Some temperature =>
                if isNaN humidity || isNaN temperature
                then done (json [("error", VString BOTH_NUMERIC)]%string 400 corsHeaders)
                else
                  let params := request_for (buildPrompt temperature humidity) imageFile in
                  {| calls := [params];
                     response := match generateContent params with
                                 | Returns response =>
                                     answer imageFile temperature humidity response
                                 | Throws e => caught e
                                 end |}
            | _, _ =>
                done (json [("error", VString BOTH_NUMERIC)]%string 400 corsHeaders)
            end
      end
  end.

End RouteContext.

(** ** Vocabulary of the statements *)

(** The code units that are white space for [trim] and [\s] but not
    for JSON, and the backquote: outside a string they end the parse,
    inside a string they leave it open. *)
Definition stray (c : char) : Prop :=
  c = 96 \/ (isSpace c = true /\ Json.is_ws c = false).

(** The non-empty file a request uploads under the name [file]. *)
Definition upload (request : Request) : option File :=
  match formData request with
  | Returns fd =>
      match formData_get (lit "file") fd with
      | Some (EntryFile f) => if size f =? 0 then None else Some f
      | _ => None
      end
  | Throws _ => None
  end.

(** The handler called the provider once and the provider returned [reply]. *)
Definition answered (generateContent : Provider) (o : Outcome)
  (reply : GenerateContentResponse) : Prop :=
  exists params, calls o = [params] /\ generateContent params = Returns reply.

(** The temperature and the humidity a request supplies, when both
    are there, non-empty and numeric. *)
Definition readings (request : Request) : option (JSNumber * JSNumber) :=
  match formData request with
  | Returns fd =>
      match RouteContext.optional_number (formData_get (lit "humidity") fd),
            RouteContext.optional_number (formData_get (lit "temperature") fd) with
      | Some h, Some t => if isNaN h || isNaN t then None else Some (t, h)
      | _, _ => None
      end
  | Throws _ => None
  end.

Definition Handler := Provider -> Request -> Outcome.

Definition handlers : list Handler :=
  [RouteText.POST; RouteJson.POST; RouteCors.POST; RouteContext.POST].

(** The handlers that normalize the provider's text. *)
Definition structured : list Handler :=
  [RouteJson.POST; RouteCors.POST; RouteContext.POST].

(** What the claims read off a response to a provider text. *)
Record Verdict := {
  v_status : N;
  v_shoe_type : option Value;
  v_minutes : option Value;
  v_raw : option Value
}.

Definition verdict (r : NextResponse) : Verdict :=
  {| v_status := status r;
     v_shoe_type := field "shoe_type" r;
     v_minutes := field "recommended_time_minutes" r;
     v_raw := field "gemini_raw_output" r |}.

(** What a structured handler answers to a non-empty provider text,
    as [parseAnalysis] decides it. *)
Definition text_verdict (generatedText : jsstring) : Verdict :=
  match parseAnalysis generatedText with
  | None =>
      {| v_status := 500; v_shoe_type := None; v_minutes := None;
         v_raw := Some (VString generatedText) |}
  | Some analysisObject =>
      {| v_status := 200;
         v_shoe_type := Some (of_optional (prop analysisObject SHOE_TYPE));
         v_minutes := Some (of_optional (prop analysisObject MINUTES));
         v_raw := None |}
  end.

(** How the handlers start the message of a blocked reply. *)
Definition block_prefixes : list jsstring :=
  [lit "Content was blocked due to safety settings: ";
   lit "Content blocked due to safety settings: "].

(** [d <= n], for the exact decimal [d] and an integer [n]. *)
Definition decimal_le (d : Decimal) (n : Z) : Prop :=
  (if expo d <? 0
   then mant d <= n * 10 ^ (- expo d)
   else mant d * 10 ^ expo d <= n)%Z.

(** The response carries a number of minutes within the ceiling. *)
Definition within_ceiling (r : NextResponse) : Prop :=
  exists d, field "recommended_time_minutes" r = Some (VJson (JNumber d))
            /\ decimal_le d 60.

(** The fenced form of a text: the tagged opening fence, white space,
    the text, white space, the closing fence. *)
Definition fenced (ws1 t ws2 : jsstring) : jsstring :=
  FENCE_JSON ++ ws1 ++ t ++ ws2 ++ FENCE.

(** The value of a base64 digit and the bytes a base64 text stands for
    (RFC 4648): what a reader of the inline data gets back.  The
    handlers never decode; this is here to say that encoding loses
    nothing. *)
Definition base64_value (c : char) : option N :=
  if (65 <=? c) && (c <=? 90) then Some (c - 65)
  else if (97 <=? c) && (c <=? 122) then Some (c - 71)
  else if (48 <=? c) && (c <=? 57) then Some (c + 4)
  else if c =? 43 then Some 62
  else if c =? 47 then Some 63
  else None.

Fixpoint base64_decode (s : jsstring) : option (list N) :=
  match s with
  | [] => Some []
  | a :: b :: c :: d :: r =>
      match base64_value a, base64_value b with
      | Some x, Some y =>
          if (c =? 61) && (d =? 61) then
            match r with
            | [] => Some [x * 4 + y / 16]
            | _ => None
            end
          else
            match base64_value c with
            | Some z =>
                if d =? 61 then
                  match r with
                  | [] => Some [x * 4 + y / 16; y mod 16 * 16 + z / 4]
                  | _ => None
                  end
                else
                  match base64_value d, base64_decode r with
                  | Some w, Some bs =>
                      Some (x * 4 + y / 16 :: y mod 16 * 16 + z / 4
                              :: z mod 4 * 64 + w :: bs)
                  | _, _ => None
                  end
            | None => None
            end
      | _, _ => None
      end
  | _ => None
  end.

(** The handlers of the files without the context fields. *)
Definition plain : list Handler :=
  [RouteText.POST; RouteJson.POST; RouteCors.POST].

(** What the outer [catch] reports for a non-error value. *)
Definition fallbacks : list jsstring :=
  [lit "An unknown error occurred."; lit "Unknown error."].

(** ** Sample inputs *)

Definition sample_file : File :=
  {| name := lit "shoe.jpg"; type := lit "image/jpeg";
     bytes := [255; 216; 255; 224] |}.

Definition sample_request : Request :=
  {| formData := Returns [(lit "file", EntryFile sample_file)] |}.

Definition context_request (temperature humidity : string) : Request :=
  {| formData := Returns [(lit "file", EntryFile sample_file);
                          (lit "temperature", EntryString (lit temperature));
                          (lit "humidity", EntryString (lit humidity))] |}.

(** A reply whose first candidate's first part is the text [t]. *)
Definition reply_text (t : jsstring) (feedback : option PromptFeedback)
  : GenerateContentResponse :=
  {| candidates :=
       Some [ {| content := Some {| reply_parts := Some [ {| text := Some t |} ] |} |} ];
     promptFeedback := feedback |}.

(** A reply with no candidate. *)
Definition reply_empty (feedback : option PromptFeedback)
  : GenerateContentResponse :=
  {| candidates := None; promptFeedback := feedback |}.

Definition safety_block : PromptFeedback :=
  {| blockReason := Some (lit "SAFETY");
     safetyRatings :=
       Some (JArray [JObject [(lit "category", JString (lit "HARM_CATEGORY_DANGEROUS_CONTENT"));
                              (lit "probability", JString (lit "HIGH"))]]) |}.

Definition replies (reply : GenerateContentResponse) : Provider :=
  fun _ => Returns reply.

(** The response of the CORS handler to the sample upload when the
    provider answers [reply]. *)
Definition cors_response (reply : GenerateContentResponse) : NextResponse :=
  response (RouteCors.POST (replies reply) sample_request).

Definition sneaker_1000 : jsstring :=
  q "{'shoe_type': 'Sneaker', 'recommended_time_minutes': 1000}".
Definition sneaker_40 : jsstring :=
  q "{'shoe_type': 'Sneaker, medium thickness', 'recommended_time_minutes': 40}".
Definition label_5 : jsstring :=
  q "{'shoe_type': 5, 'recommended_time_minutes': 40}".
Definition minutes_as_text : jsstring :=
  q "{'shoe_type': 'Sneaker', 'recommended_time_minutes': '40'}".
Definition label_empty : jsstring :=
  q "{'shoe_type': '', 'recommended_time_minutes': 40}".

(** A provider that fails with [e]. *)
Definition fails (e : Thrown) : Provider := fun _ => Throws e.

(** The two-field structure inside a fence without a tag. *)
Definition untagged : jsstring :=
  lit "```" ++ [10] ++ sneaker_40 ++ [10] ++ lit "```".

(** * Properties *)

(** ** White space and trimming *)

Lemma isSpace_In (c : char) : isSpace c = true -> In c spaces.
Proof.
  unfold isSpace. intros H. apply existsb_exists in H.
  destruct H as [x [Hx E]]. apply N.eqb_eq in E. now subst.
Qed.

Lemma is_ws_cases (c : char) :
  Json.is_ws c = true -> c = 32 \/ c = 9 \/ c = 10 \/ c = 13.
Proof.
  unfold Json.is_ws. rewrite !orb_true_iff, !N.eqb_eq. tauto.
Qed.

Lemma trimStart_head (s r : jsstring) (c : char) :
  trimStart s = c :: r -> isSpace c = false.
Proof.
  induction s as [|x s IH]; simpl; [discriminate|].
  destruct (isSpace x) eqn:E; [exact IH|].
  intros H. injection H as -> _. exact E.
Qed.

Lemma trimStart_spaces (w s : jsstring) :
  all_spaces w -> trimStart (w ++ s) = trimStart s.
Proof.
  induction 1 as [|c w Hc _ IH]; simpl; [reflexivity|].
  now rewrite Hc.
Qed.

Lemma trimStart_app (s r y : jsstring) (c : char) :
  trimStart s = c :: r -> trimStart (s ++ y) = c :: r ++ y.
Proof.
  induction s as [|x s IH]; simpl; [discriminate|].
  destruct (isSpace x); [exact IH|].
  intros H. injection H as -> ->. reflexivity.
Qed.

Lemma trimStart_split (s : jsstring) :
  exists w, all_spaces w /\ s = w ++ trimStart s.
Proof.
  induction s as [|c s [w [Hw E]]]; simpl.
  - exists []. split; [constructor | reflexivity].
  - destruct (isSpace c) eqn:Hc.
    + exists (c :: w). split; [now constructor | simpl; now f_equal].
    + exists []. split; [constructor | reflexivity].
Qed.

Lemma all_spaces_rev (w : jsstring) : all_spaces w -> all_spaces (rev w).
Proof. apply Forall_rev. Qed.

Lemma all_spaces_app (a b : jsstring) :
  all_spaces a -> all_spaces b -> all_spaces (a ++ b).
Proof. intros; apply Forall_app; now split. Qed.

Lemma trimEnd_split (s : jsstring) :
  exists w, all_spaces w /\ s = trimEnd s ++ w.
Proof.
  destruct (trimStart_split (rev s)) as [w [Hw E]].
  exists (rev w). split; [now apply all_spaces_rev|].
  unfold trimEnd. rewrite <- rev_app_distr, <- E. now rewrite rev_involutive.
Qed.

Lemma trimEnd_last (s p : jsstring) (z : char) :
  trimEnd s = p ++ [z] -> isSpace z = false.
Proof.
  unfold trimEnd. intros H.
  apply (f_equal (@rev char)) in H.
  rewrite rev_involutive, rev_app_distr in H. simpl in H.
  exact (trimStart_head _ _ _ H).
Qed.

Lemma trimStart_fixed (s : jsstring) (c : char) :
  isSpace c = false -> trimStart (c :: s) = c :: s.
Proof. intros H. simpl. now rewrite H. Qed.

Lemma trimEnd_fixed (s : jsstring) (z : char) :
  isSpace z = false -> trimEnd (s ++ [z]) = s ++ [z].
Proof.
  intros H. unfold trimEnd. rewrite rev_app_distr. simpl.
  rewrite H. simpl. now rewrite rev_involutive.
Qed.

(** ** The closing fence *)

Lemma eqb_str_eq (a b : jsstring) : eqb_str a b = true -> a = b.
Proof.
  revert b. induction a as [|x a IH]; intros [|y b]; simpl; try discriminate.
  - reflexivity.
  - rewrite andb_true_iff, N.eqb_eq. intros [-> H]. f_equal. now apply IH.
Qed.

Lemma at_close_last (s : jsstring) :
  at_close s = true -> exists p, s = p ++ [96].
Proof.
  unfold at_close. intros H. apply eqb_str_eq in H.
  destruct (trimStart_split s) as [w [_ E]]. rewrite H in E.
  exists (w ++ [96; 96]). rewrite E. rewrite <- app_assoc. reflexivity.
Qed.

Lemma replace_close_id (s : jsstring) :
  (forall p, s <> p ++ [96]) -> replace_close s = s.
Proof.
  induction s as [|c s IH]; intros H.
  - simpl. destruct (at_close []) eqn:E; reflexivity.
  - simpl. destruct (at_close (c :: s)) eqn:E.
    + apply at_close_last in E. destruct E as [p E]. now apply H in E.
    + f_equal. apply IH. intros p Hp. apply (H (c :: p)). simpl. now f_equal.
Qed.

Lemma at_close_fence (w : jsstring) :
  all_spaces w -> at_close (w ++ FENCE) = true.
Proof.
  intros H. unfold at_close. rewrite trimStart_spaces by assumption.
  reflexivity.
Qed.

Lemma at_close_inside (x y : jsstring) (z : char) :
  isSpace z = false -> at_close (x ++ z :: y ++ FENCE) = false.
Proof.
  intros Hz. unfold at_close.
  destruct (eqb_str (trimStart (x ++ z :: y ++ FENCE)) FENCE) eqn:E; [|reflexivity].
  apply eqb_str_eq in E. exfalso.
  assert (L : (4 <= length (trimStart (x ++ z :: y ++ FENCE)))%nat).
  { clear E. induction x as [|c x IH]; simpl.
    - rewrite Hz. simpl. rewrite length_app. simpl. lia.
    - destruct (isSpace c); [exact IH|].
      simpl. rewrite !length_app. simpl. rewrite length_app. simpl. lia. }
  rewrite E in L. simpl in L. lia.
Qed.

Lemma replace_close_cons (c : char) (s : jsstring) :
  at_close (c :: s) = false -> replace_close (c :: s) = c :: replace_close s.
Proof. intros H. cbn [replace_close]. now rewrite H. Qed.

Lemma replace_close_at (s : jsstring) :
  at_close s = true -> replace_close s = [].
Proof. intros H. destruct s; cbn [replace_close]; now rewrite H. Qed.

Lemma replace_close_fenced (x w : jsstring) (z : char) :
  isSpace z = false -> all_spaces w ->
  replace_close (x ++ z :: w ++ FENCE) = x ++ [z].
Proof.
  intros Hz Hw. induction x as [|c x IH].
  - change ([] ++ z :: w ++ FENCE) with (z :: w ++ FENCE).
    rewrite replace_close_cons by exact (at_close_inside [] w z Hz).
    now rewrite (replace_close_at _ (at_close_fence w Hw)).
  - change ((c :: x) ++ z :: w ++ FENCE) with (c :: (x ++ z :: w ++ FENCE)).
    rewrite replace_close_cons by exact (at_close_inside (c :: x) w z Hz).
    simpl. now f_equal.
Qed.

(** ** [JSON.parse] and white space

    One-step facts about the machine; no induction on the text is
    needed beyond [run] itself. *)

Module JsonFacts.
Import Json.

Lemma run_app (s : State) (a b : jsstring) :
  run s (a ++ b) = match run s a with
                   | Some s' => run s' b
                   | None => None
                   end.
Proof.
  revert s. induction a as [|c a IH]; intros s; simpl; [reflexivity|].
  destruct (step s c); [apply IH | reflexivity].
Qed.

Lemma stray_cases (c : char) :
  stray c ->
  In c [96; 11; 12; 160; 5760; 8192; 8193; 8194; 8195; 8196; 8197; 8198;
        8199; 8200; 8201; 8202; 8232; 8233; 8239; 8287; 12288; 65279].
Proof.
  intros [-> | [H W]]; [now left|].
  apply isSpace_In in H. simpl in H.
  repeat (destruct H as [<- | H]; [first [discriminate W | simpl; tauto] |]).
  destruct H.
Qed.

Ltac each_stray Hc tac :=
  apply stray_cases in Hc; simpl in Hc;
  repeat (destruct Hc as [<- | Hc]; [tac |]);
  destruct Hc.

Lemma after_stray (s : State) (c : char) : stray c -> after s c = None.
Proof.
  intros Hc. destruct s as [m k].
  each_stray Hc ltac:(destruct m; try reflexivity;
                      destruct k as [|[| |] k]; reflexivity).
Qed.

Lemma number_end_stray (a : NumAcc) (k : list Frame) (c : char) :
  stray c -> number_end a k c = None.
Proof.
  intros Hc. unfold number_end.
  destruct (deliver _ k); [now apply after_stray | reflexivity].
Qed.

Lemma number_step_stray (p : NumPhase) (a : NumAcc) (k : list Frame) (c : char) :
  stray c -> number_step p a k c = None.
Proof.
  intros Hc. pose proof (number_end_stray a k c Hc) as E. revert E.
  each_stray Hc ltac:(destruct p; cbn; intros E; try reflexivity; exact E).
Qed.

Lemma string_step_stray (key : bool) (acc : jsstring) (x : StrState)
  (k : list Frame) (c : char) (s' : State) :
  stray c -> string_step key acc x k c = Some s' -> finish s' = None.
Proof.
  intros Hc.
  each_stray Hc ltac:(destruct x; cbn; intros H;
                      first [discriminate H | injection H as <-; reflexivity]).
Qed.

Lemma literal_stray (w : Word) (n : nat) (k : list Frame) (c : char) :
  stray c -> step (st (MLit w n) k) c = None.
Proof.
  intros Hc.
  each_stray Hc ltac:(destruct w; do 6 (try destruct n as [|n]); reflexivity).
Qed.

Lemma step_stray (s s' : State) (c : char) :
  stray c -> step s c = Some s' -> finish s' = None.
Proof.
  intros Hc. destruct s as [m k]. destruct m.
  8: { exact (string_step_stray key acc st0 k c s' Hc). }
  8: { cbn. now rewrite (number_step_stray p a k c Hc). }
  8: { change (step (st (MLit w n) k) c = Some s' -> finish s' = None).
       now rewrite (literal_stray w n k c Hc). }
  6: { change (after (st MAfter k) c = Some s' -> finish s' = None).
       now rewrite after_stray. }
  6: { change (after (st (MDone v) k) c = Some s' -> finish s' = None).
       now rewrite after_stray. }
  all: intros H; exfalso; revert H;
    each_stray Hc ltac:(cbn; try discriminate;
                        destruct k as [|[| |] k]; discriminate).
Qed.

Lemma step_init_stray (c : char) : stray c -> step init c = None.
Proof. intros Hc. each_stray Hc ltac:(reflexivity). Qed.

Ltac each_ws Hc tac :=
  apply is_ws_cases in Hc;
  destruct Hc as [-> | [-> | [-> | ->]]]; tac.

Lemma after_ws (s s' : State) (c : char) :
  is_ws c = true -> after s c = Some s' -> s' = s.
Proof.
  intros Hc. unfold after. rewrite Hc.
  destruct (mode s); congruence.
Qed.

Lemma number_end_ws (a : NumAcc) (k : list Frame) (c : char) (s' : State)
  (v : JSON) :
  is_ws c = true -> number_end a k c = Some s' -> finish s' = Some v ->
  k = [] /\ v = JNumber (num_value a).
Proof.
  intros Hc. unfold number_end.
  destruct (deliver _ k) as [s1|] eqn:D; [|discriminate].
  intros A. apply (after_ws _ _ _ Hc) in A. subst s'.
  destruct k as [|[es | ms | key] k]; cbn in D.
  - injection D as <-. cbn. intros F. injection F as <-. now split.
  - injection D as <-. discriminate.
  - discriminate.
  - destruct k as [|[| |] k]; try discriminate.
    injection D as <-. discriminate.
Qed.

Lemma step_ws (s s' : State) (c : char) (v : JSON) :
  is_ws c = true -> step s c = Some s' -> finish s' = Some v ->
  finish s = Some v.
Proof.
  intros Hc. destruct s as [m k]. destruct m.
  1-5: cbn; rewrite Hc; intros H; injection H as <-; trivial.
  1-2: intros H; apply (after_ws _ _ _ Hc) in H; now subst.
  - each_ws Hc ltac:(destruct st0; cbn; intros H F;
                     first [discriminate H | injection H as <-; discriminate F]).
  - intros H F. revert H.
    each_ws Hc ltac:(destruct p; cbn; try discriminate; intros H;
                     match type of H with
                     | number_end _ _ ?x = _ =>
                         destruct (number_end_ws a k x s' v eq_refl H F) as [-> ->]
                     end;
                     reflexivity).
  - each_ws Hc ltac:(destruct w; do 6 (try destruct n as [|n]); discriminate).
Qed.

Lemma step_init_ws (c : char) : is_ws c = true -> step init c = Some init.
Proof. intros H. unfold step. cbn. now rewrite H. Qed.

End JsonFacts.

(** ** What [JSON.parse] accepts is left alone by the cleaning *)

Section Cleaning.
Import Json JsonFacts.

Lemma space_or_stray (c : char) :
  isSpace c = true -> is_ws c = true \/ stray c.
Proof.
  intros H. destruct (is_ws c) eqn:W; [now left | right; right; now split].
Qed.

Lemma parse_cons_ws (c : char) (t : jsstring) :
  is_ws c = true -> JSON_parse (c :: t) = JSON_parse t.
Proof.
  intros H. unfold JSON_parse, parse. simpl. now rewrite (step_init_ws c H).
Qed.

Lemma parse_cons_stray (c : char) (t : jsstring) :
  stray c -> JSON_parse (c :: t) = None.
Proof.
  intros H. unfold JSON_parse, parse. simpl. now rewrite (step_init_stray c H).
Qed.

Lemma parse_snoc_stray (p : jsstring) (c : char) :
  stray c -> JSON_parse (p ++ [c]) = None.
Proof.
  intros H. unfold JSON_parse, parse. rewrite run_app.
  destruct (run init p) as [s1|]; [|reflexivity].
  simpl. destruct (step s1 c) as [s2|] eqn:E; [|reflexivity].
  exact (step_stray _ _ _ H E).
Qed.

Lemma parse_snoc_ws (p : jsstring) (c : char) (v : JSON) :
  is_ws c = true -> JSON_parse (p ++ [c]) = Some v -> JSON_parse p = Some v.
Proof.
  intros H. unfold JSON_parse, parse. rewrite run_app.
  destruct (run init p) as [s1|]; [|discriminate].
  simpl. destruct (step s1 c) as [s2|] eqn:E; [|discriminate].
  exact (step_ws _ _ _ _ H E).
Qed.

Lemma parse_trimStart (t : jsstring) (v : JSON) :
  JSON_parse t = Some v -> JSON_parse (trimStart t) = Some v.
Proof.
  induction t as [|c t IH]; simpl; [trivial|].
  destruct (isSpace c) eqn:S; [|trivial].
  destruct (space_or_stray c S) as [W | W].
  - rewrite (parse_cons_ws c t W). exact IH.
  - now rewrite (parse_cons_stray c t W).
Qed.

Lemma parse_trimEnd (t : jsstring) (v : JSON) :
  JSON_parse t = Some v -> JSON_parse (trimEnd t) = Some v.
Proof.
  unfold trimEnd. rewrite <- (rev_involutive t) at 1.
  induction (rev t) as [|c l IH]; simpl; [trivial|].
  destruct (isSpace c) eqn:S; [|trivial].
  destruct (space_or_stray c S) as [W | W].
  - intros H. apply IH. exact (parse_snoc_ws _ _ _ W H).
  - now rewrite (parse_snoc_stray _ c W).
Qed.

Lemma parse_trim (t : jsstring) (v : JSON) :
  JSON_parse t = Some v -> JSON_parse (trim t) = Some v.
Proof. intros H. now apply parse_trimEnd, parse_trimStart. Qed.

Lemma parse_unfenced (x : jsstring) (v : JSON) :
  JSON_parse x = Some v -> replace_open x = x /\ replace_close x = x.
Proof.
  intros H. split.
  - unfold replace_open. destruct x as [|c x]; [reflexivity|].
    change FENCE_JSON with (96 :: [96; 96; 106; 115; 111; 110]).
    cbn [strip_prefix]. destruct (N.eqb_spec 96 c) as [<- | _]; [|reflexivity].
    rewrite parse_cons_stray in H by now left. discriminate.
  - apply replace_close_id. intros p ->.
    rewrite parse_snoc_stray in H by now left. discriminate.
Qed.

(** A text that [JSON.parse] accepts is cleaned to its trimmed self. *)
Lemma cleanText_parsed (t : jsstring) (v : JSON) :
  JSON_parse t = Some v -> cleanText t = trim t.
Proof.
  intros H. apply parse_trim in H. unfold cleanText.
  destruct (parse_unfenced _ _ H) as [-> ->]. reflexivity.
Qed.

Lemma trim_fenced (x : jsstring) :
  trim (FENCE_JSON ++ x ++ FENCE) = FENCE_JSON ++ x ++ FENCE.
Proof.
  unfold trim.
  change (FENCE_JSON ++ x ++ FENCE)
    with (96 :: ([96; 96; 106; 115; 111; 110] ++ x ++ FENCE)).
  rewrite trimStart_fixed by reflexivity.
  change (96 :: [96; 96; 106; 115; 111; 110] ++ x ++ FENCE)
    with (FENCE_JSON ++ x ++ [96; 96] ++ [96]).
  rewrite !app_assoc. apply trimEnd_fixed. reflexivity.
Qed.

Lemma replace_open_fenced (x : jsstring) :
  replace_open (FENCE_JSON ++ x) = trimStart x.
Proof. reflexivity. Qed.

(** A fenced text that wraps an accepted text is cleaned to the same. *)
Lemma cleanText_fenced (t ws1 ws2 : jsstring) (v : JSON) :
  JSON_parse t = Some v -> all_spaces ws1 -> all_spaces ws2 ->
  cleanText (FENCE_JSON ++ ws1 ++ t ++ ws2 ++ FENCE) = trim t.
Proof.
  intros H W1 W2. unfold cleanText.
  replace (FENCE_JSON ++ ws1 ++ t ++ ws2 ++ FENCE)
    with (FENCE_JSON ++ (ws1 ++ t ++ ws2) ++ FENCE)
    by now rewrite <- !app_assoc.
  rewrite trim_fenced, replace_open_fenced.
  rewrite <- !app_assoc, trimStart_spaces by assumption.
  pose proof (parse_trim _ _ H) as T.
  destruct (trimEnd_split (trimStart t)) as [w [Hw E]]. fold (trim t) in E.
  destruct (rev (trim t)) as [|z r] eqn:R.
  { apply (f_equal (@rev char)) in R. rewrite rev_involutive in R.
    simpl in R. rewrite R in T. discriminate T. }
  apply (f_equal (@rev char)) in R. rewrite rev_involutive in R. simpl in R.
  assert (Hz : isSpace z = false) by exact (trimEnd_last _ _ _ R).
  destruct (trimStart t) as [|c u] eqn:U.
  { rewrite R in E. destruct (rev r); discriminate E. }
  rewrite (trimStart_app t u _ c U).
  change (c :: u ++ ws2 ++ FENCE) with ((c :: u) ++ ws2 ++ FENCE).
  rewrite E, R, <- !app_assoc. simpl.
  rewrite app_assoc.
  apply replace_close_fenced; [exact Hz | now apply all_spaces_app].
Qed.

End Cleaning.

(** ** From a handler to its response *)

Ltac reach_provider H :=
  let params := fresh "params" in
  let Hc := fresh "Hc" in
  let Hg := fresh "Hg" in
  destruct H as [params [Hc Hg]]; revert Hc Hg;
  unfold upload;
  destruct (formData _) as [fd|]; [|discriminate];
  destruct (formData_get (lit "file") fd) as [[|f]|]; try discriminate;
  destruct (size f =? 0); try discriminate.

Lemma text_answered (g : Provider) (request : Request)
  (reply : GenerateContentResponse) :
  answered g (RouteText.POST g request) reply ->
  exists f, upload request = Some f
            /\ response (RouteText.POST g request) = RouteText.answer f reply.
Proof.
  intros H. unfold RouteText.POST in *. reach_provider H.
  cbn. intros Hc Hg. injection Hc as <-. rewrite Hg. now exists f.
Qed.

Lemma json_answered (g : Provider) (request : Request)
  (reply : GenerateContentResponse) :
  answered g (RouteJson.POST g request) reply ->
  exists f, upload request = Some f
            /\ response (RouteJson.POST g request) = RouteJson.answer f reply.
Proof.
  intros H. unfold RouteJson.POST in *. reach_provider H.
  cbn. intros Hc Hg. injection Hc as <-. rewrite Hg. now exists f.
Qed.

Lemma cors_answered (g : Provider) (request : Request)
  (reply : GenerateContentResponse) :
  answered g (RouteCors.POST g request) reply ->
  exists f, upload request = Some f
            /\ response (RouteCors.POST g request) = RouteCors.answer f reply.
Proof.
  intros H. unfold RouteCors.POST in *. reach_provider H.
  cbn. intros Hc Hg. injection Hc as <-. rewrite Hg. now exists f.
Qed.

Lemma context_answered (g : Provider) (request : Request)
  (reply : GenerateContentResponse) :
  answered g (RouteContext.POST g request) reply ->
  exists f t h,
    upload request = Some f /\ readings request = Some (t, h)
    /\ response (RouteContext.POST g request) = RouteContext.answer f t h reply.
Proof.
  intros H. unfold RouteContext.POST, readings in *. reach_provider H.
  cbv zeta.
  destruct (RouteContext.optional_number (formData_get (lit "humidity") fd))
    as [h|]; [|discriminate].
  destruct (RouteContext.optional_number (formData_get (lit "temperature") fd))
    as [t|]; [|discriminate].
  destruct (isNaN h || isNaN t); [discriminate|].
  cbn. intros Hc Hg. injection Hc as <-. rewrite Hg. now exists f, t, h.
Qed.

Lemma structured_verdict (POST : Handler) (g : Provider) (request : Request)
  (reply : GenerateContentResponse) (generatedText : jsstring) :
  In POST structured ->
  answered g (POST g request) reply ->
  firstText reply = Some generatedText -> generatedText <> [] ->
  verdict (response (POST g request)) = text_verdict generatedText.
Proof.
  intros HP HA HT HN.
  destruct generatedText as [|c text]; [contradiction|].
  unfold text_verdict.
  destruct HP as [<- | [<- | [<- | []]]].
  - destruct (json_answered _ _ _ HA) as [f [_ ->]].
    unfold RouteJson.answer. rewrite HT.
    destruct (parseAnalysis (c :: text)); reflexivity.
  - destruct (cors_answered _ _ _ HA) as [f [_ ->]].
    unfold RouteCors.answer. rewrite HT.
    destruct (parseAnalysis (c :: text)); reflexivity.
  - destruct (context_answered _ _ _ HA) as [f [t [h [_ [_ ->]]]]].
    unfold RouteContext.answer. rewrite HT.
    destruct (parseAnalysis (c :: text)); reflexivity.
Qed.

Lemma parsed_nonempty (generatedText : jsstring) (v : JSON) :
  JSON_parse (cleanText generatedText) = Some v -> generatedText <> [].
Proof. intros H ->. discriminate H. Qed.

(** A reply without text: blocked (403) when the feedback carries a
    non-empty reason, unexpected (500) otherwise. *)
Lemma silent_reply (POST : Handler) (g : Provider) (request : Request)
  (reply : GenerateContentResponse) :
  In POST handlers ->
  answered g (POST g request) reply ->
  firstText reply = None \/ firstText reply = Some [] ->
  match promptFeedback reply with
  | Some {| blockReason := Some ((_ :: _) as reason); safetyRatings := ratings |} =>
      status (response (POST g request)) = 403
      /\ (exists prefix,
             In prefix block_prefixes
             /\ field "error" (response (POST g request))
                = Some (VString (prefix ++ reason)))
      /\ field "safety_ratings" (response (POST g request))
         = Some (of_optional ratings)
  | _ =>
      status (response (POST g request)) = 500
      /\ field "full_response_debug" (response (POST g request))
         = Some (VResponse reply)
  end.
Proof.
  intros HP HA HT.
  assert (B1 : In (lit "Content was blocked due to safety settings: ")
                  block_prefixes) by (left; reflexivity).
  assert (B2 : In (lit "Content blocked due to safety settings: ")
                  block_prefixes) by (right; left; reflexivity).
  destruct HP as [<- | [<- | [<- | [<- | []]]]].
  - destruct (text_answered _ _ _ HA) as [f [_ ->]]. unfold RouteText.answer.
    destruct HT as [-> | ->];
      destruct (promptFeedback reply) as [[[[|c r]|] ratings]|];
      repeat split; try reflexivity; eexists; (split; [exact B1 | reflexivity]).
  - destruct (json_answered _ _ _ HA) as [f [_ ->]]. unfold RouteJson.answer.
    destruct HT as [-> | ->];
      destruct (promptFeedback reply) as [[[[|c r]|] ratings]|];
      repeat split; try reflexivity; eexists; (split; [exact B1 | reflexivity]).
  - destruct (cors_answered _ _ _ HA) as [f [_ ->]]. unfold RouteCors.answer.
    destruct HT as [-> | ->];
      destruct (promptFeedback reply) as [[[[|c r]|] ratings]|];
      repeat split; try reflexivity; eexists; (split; [exact B1 | reflexivity]).
  - destruct (context_answered _ _ _ HA) as [f [t [h [_ [_ ->]]]]].
    unfold RouteContext.answer.
    destruct HT as [-> | ->];
      destruct (promptFeedback reply) as [[[[|c r]|] ratings]|];
      repeat split; try reflexivity; eexists; (split; [exact B2 | reflexivity]).
Qed.

Lemma silent_status (POST : Handler) (g : Provider) (request : Request)
  (reply : GenerateContentResponse) :
  In POST handlers ->
  answered g (POST g request) reply ->
  firstText reply = None \/ firstText reply = Some [] ->
  status (response (POST g request)) <> 200.
Proof.
  intros HP HA HT. pose proof (silent_reply _ _ _ _ HP HA HT) as H.
  destruct (promptFeedback reply) as [[[[|c r]|] ratings]|];
    destruct H as [-> _]; discriminate.
Qed.

Lemma structured_handlers (POST : Handler) :
  In POST structured -> In POST handlers.
Proof. intros H. right. exact H. Qed.

(** What [parseAnalysis] accepts. *)
Lemma parseAnalysis_some (generatedText : jsstring) (a : JSON) :
  parseAnalysis generatedText = Some a ->
  JSON_parse (cleanText generatedText) = Some a
  /\ truthy (prop a SHOE_TYPE) = true
  /\ exists d, prop a MINUTES = Some (JNumber d).
Proof.
  unfold parseAnalysis.
  destruct (JSON_parse (cleanText generatedText)) as [v|]; [|discriminate].
  assert (G : (if negb (truthy (prop v SHOE_TYPE))
                  || negb (typeof_number (prop v MINUTES))
               then None else Some v) = Some a ->
              Some v = Some a /\ truthy (prop a SHOE_TYPE) = true
              /\ exists d, prop a MINUTES = Some (JNumber d)).
  { destruct (truthy (prop v SHOE_TYPE)) eqn:T; [|discriminate].
    destruct (prop v MINUTES) as [[| | d | | |]|] eqn:M; try discriminate.
    simpl. intros E. injection E as <-. rewrite T, M. eauto. }
  destruct v; exact G.
Qed.

(** What [parseAnalysis] rejects. *)
Lemma parseAnalysis_none (generatedText : jsstring) :
  JSON_parse (cleanText generatedText) = None
  \/ (exists v, JSON_parse (cleanText generatedText) = Some v
                /\ (truthy (prop v SHOE_TYPE) = false
                    \/ typeof_number (prop v MINUTES) = false)) ->
  parseAnalysis generatedText = None.
Proof.
  unfold parseAnalysis. intros [-> | [v [-> H]]]; [reflexivity|].
  destruct v; try reflexivity;
    destruct H as [-> | ->]; try reflexivity; now rewrite orb_true_r.
Qed.

(** * The claims *)

(** ** C1: the 60-minute ceiling *)

(** C1, as stated, fails: the provider answers a well-formed structure
    with 1000 minutes; the CORS handler returns 200 and passes the 1000
    on, which is above the ceiling. *)
Lemma ceiling_exceeded :
  status (cors_response (reply_text sneaker_1000 None)) = 200
  /\ field "recommended_time_minutes" (cors_response (reply_text sneaker_1000 None))
     = Some (VJson (JNumber {| mant := 1000; expo := 0 |}))
  /\ ~ within_ceiling (cors_response (reply_text sneaker_1000 None)).
Proof.
  split; [reflexivity|]. split; [reflexivity|].
  intros [d [E L]]. vm_compute in E. injection E as <-.
  unfold decimal_le in L. simpl in L. lia.
Qed.

(** What a structured handler sends for the two fields of an accepted
    text. *)
Lemma structured_sent (POST : Handler) (g : Provider) (request : Request)
  (reply : GenerateContentResponse) (generatedText : jsstring) (a : JSON) :
  In POST structured ->
  answered g (POST g request) reply ->
  firstText reply = Some generatedText ->
  parseAnalysis generatedText = Some a ->
  sent_field "shoe_type" (response (POST g request))
  = option_map wire (prop a SHOE_TYPE)
  /\ sent_field "recommended_time_minutes" (response (POST g request))
     = option_map wire (prop a MINUTES).
Proof.
  intros HP HA HT PA.
  destruct generatedText as [|c text]; [discriminate PA|].
  destruct HP as [<- | [<- | [<- | []]]].
  - destruct (json_answered _ _ _ HA) as [f [_ ->]].
    unfold RouteJson.answer. rewrite HT, PA.
    destruct (prop a SHOE_TYPE), (prop a MINUTES); split; reflexivity.
  - destruct (cors_answered _ _ _ HA) as [f [_ ->]].
    unfold RouteCors.answer. rewrite HT, PA.
    destruct (prop a SHOE_TYPE), (prop a MINUTES); split; reflexivity.
  - destruct (context_answered _ _ _ HA) as [f [t [h [_ [_ ->]]]]].
    unfold RouteContext.answer. rewrite HT, PA.
    destruct (prop a SHOE_TYPE), (prop a MINUTES); split; reflexivity.
Qed.

(** C1, amended: in every 200 response of a structured handler, the
    [recommended_time_minutes] that is sent is the number the parsed
    provider text holds under that key, as [JSON.stringify] writes it:
    the binary64 nearest to it, whatever its size, and [null] when that
    is not finite.  No ceiling is applied. *)
Theorem minutes_pass_through (POST : Handler) (g : Provider)
  (request : Request) (reply : GenerateContentResponse) :
  In POST structured ->
  answered g (POST g request) reply ->
  status (response (POST g request)) = 200 ->
  exists generatedText analysisObject d,
    firstText reply = Some generatedText
    /\ JSON_parse (cleanText generatedText) = Some analysisObject
    /\ prop analysisObject MINUTES = Some (JNumber d)
    /\ sent_field "recommended_time_minutes" (response (POST g request))
       = Some (match nearest d with
               | Some x => WNumber x
               | None => WNull
               end).
Proof.
  intros HP HA HS.
  destruct (firstText reply) as [[|c text]|] eqn:HT.
  - exfalso. revert HS.
    apply (silent_status _ _ _ _ (structured_handlers _ HP) HA). now right.
  - assert (V := structured_verdict _ _ _ _ _ HP HA HT ltac:(discriminate)).
    unfold text_verdict in V.
    destruct (parseAnalysis (c :: text)) as [a|] eqn:PA.
    + destruct (parseAnalysis_some _ _ PA) as [HJ [_ [d HM]]].
      exists (c :: text), a, d. repeat split; try assumption.
      destruct (structured_sent _ _ _ _ _ _ HP HA HT PA) as [_ ->].
      rewrite HM. reflexivity.
    + apply (f_equal v_status) in V. unfold verdict in V.
      cbn [v_status] in V. rewrite V in HS. discriminate.
  - exfalso. revert HS.
    apply (silent_status _ _ _ _ (structured_handlers _ HP) HA). now left.
Qed.

Lemma minutes_pass_through_witness :
  exists generatedText analysisObject d,
    firstText (reply_text sneaker_1000 None) = Some generatedText
    /\ JSON_parse (cleanText generatedText) = Some analysisObject
    /\ prop analysisObject MINUTES = Some (JNumber d)
    /\ sent_field "recommended_time_minutes"
         (cors_response (reply_text sneaker_1000 None))
       = Some (match nearest d with
               | Some x => WNumber x
               | None => WNull
               end).
Proof.
  apply (minutes_pass_through RouteCors.POST
           (replies (reply_text sneaker_1000 None)) sample_request
           (reply_text sneaker_1000 None)).
  - right; left; reflexivity.
  - eexists; split; reflexivity.
  - reflexivity.
Defined.

(** ** C2: a fence around the text changes nothing *)

(** C2: for every text [t] that [JSON.parse] accepts (the valid
    two-field structures among them) and all runs of white space [ws1]
    and [ws2], the fenced text is normalized exactly as [t] is; so a
    structured handler answers both with the same status, the same
    [shoe_type] and the same [recommended_time_minutes]. *)
Theorem fence_is_transparent (t ws1 ws2 : jsstring) (v : JSON) :
  JSON_parse t = Some v -> all_spaces ws1 -> all_spaces ws2 ->
  parseAnalysis (fenced ws1 t ws2) = parseAnalysis t
  /\ forall (POST : Handler) (g1 g2 : Provider) (request : Request)
            (reply1 reply2 : GenerateContentResponse),
       In POST structured ->
       answered g1 (POST g1 request) reply1 ->
       answered g2 (POST g2 request) reply2 ->
       firstText reply1 = Some (fenced ws1 t ws2) ->
       firstText reply2 = Some t ->
       status (response (POST g1 request)) = status (response (POST g2 request))
       /\ field "shoe_type" (response (POST g1 request))
          = field "shoe_type" (response (POST g2 request))
       /\ field "recommended_time_minutes" (response (POST g1 request))
          = field "recommended_time_minutes" (response (POST g2 request)).
Proof.
  intros HJ W1 W2.
  assert (PA : parseAnalysis (fenced ws1 t ws2) = parseAnalysis t).
  { unfold parseAnalysis, fenced.
    now rewrite (cleanText_fenced t ws1 ws2 v HJ W1 W2), (cleanText_parsed t v HJ). }
  split; [exact PA|].
  intros POST g1 g2 request reply1 reply2 HP A1 A2 T1 T2.
  assert (N2 : t <> []) by (intros ->; discriminate HJ).
  assert (V1 := structured_verdict _ _ _ _ _ HP A1 T1 ltac:(discriminate)).
  assert (V2 := structured_verdict _ _ _ _ _ HP A2 T2 N2).
  unfold text_verdict in V1, V2. rewrite PA in V1.
  destruct (parseAnalysis t).
  - repeat split.
    + exact (eq_trans (f_equal v_status V1) (eq_sym (f_equal v_status V2))).
    + exact (eq_trans (f_equal v_shoe_type V1) (eq_sym (f_equal v_shoe_type V2))).
    + exact (eq_trans (f_equal v_minutes V1) (eq_sym (f_equal v_minutes V2))).
  - repeat split.
    + exact (eq_trans (f_equal v_status V1) (eq_sym (f_equal v_status V2))).
    + exact (eq_trans (f_equal v_shoe_type V1) (eq_sym (f_equal v_shoe_type V2))).
    + exact (eq_trans (f_equal v_minutes V1) (eq_sym (f_equal v_minutes V2))).
Qed.

Lemma fence_is_transparent_witness :
  parseAnalysis (fenced [10] sneaker_40 [10]) = parseAnalysis sneaker_40
  /\ forall (POST : Handler) (g1 g2 : Provider) (request : Request)
            (reply1 reply2 : GenerateContentResponse),
       In POST structured ->
       answered g1 (POST g1 request) reply1 ->
       answered g2 (POST g2 request) reply2 ->
       firstText reply1 = Some (fenced [10] sneaker_40 [10]) ->
       firstText reply2 = Some sneaker_40 ->
       status (response (POST g1 request)) = status (response (POST g2 request))
       /\ field "shoe_type" (response (POST g1 request))
          = field "shoe_type" (response (POST g2 request))
       /\ field "recommended_time_minutes" (response (POST g1 request))
          = field "recommended_time_minutes" (response (POST g2 request)).
Proof.
  apply (fence_is_transparent sneaker_40 [10] [10]
           (JObject [(SHOE_TYPE, JString (lit "Sneaker, medium thickness"));
                     (MINUTES, JNumber {| mant := 40; expo := 0 |})])).
  - reflexivity.
  - repeat constructor.
  - repeat constructor.
Defined.

(** ** C3: a text that does not normalize *)

(** C3, as stated, fails: the first candidate's text is present and
    empty, so it is not parseable, yet the handler treats it as no text
    and answers the block reason with 403, without the raw text. *)
Lemma empty_text_is_not_500 :
  firstText (reply_text [] (Some safety_block)) = Some []
  /\ JSON_parse (cleanText []) = None
  /\ status (cors_response (reply_text [] (Some safety_block))) = 403
  /\ field "gemini_raw_output" (cors_response (reply_text [] (Some safety_block)))
     = None.
Proof. repeat split. Qed.

(** C3, amended: for every reply whose first candidate's text is
    non-empty and, once cleaned, is rejected by [JSON.parse] or parses
    to a value whose [shoe_type] is missing or falsy or whose
    [recommended_time_minutes] is not a number, a structured handler
    returns 500 and [gemini_raw_output] is the provider's text as
    received. *)
Theorem unparseable_text_is_500 (POST : Handler) (g : Provider)
  (request : Request) (reply : GenerateContentResponse)
  (generatedText : jsstring) :
  In POST structured ->
  answered g (POST g request) reply ->
  firstText reply = Some generatedText -> generatedText <> [] ->
  (JSON_parse (cleanText generatedText) = None
   \/ exists v, JSON_parse (cleanText generatedText) = Some v
                /\ (truthy (prop v SHOE_TYPE) = false
                    \/ typeof_number (prop v MINUTES) = false)) ->
  status (response (POST g request)) = 500
  /\ field "gemini_raw_output" (response (POST g request))
     = Some (VString generatedText).
Proof.
  intros HP HA HT HN HB.
  assert (V := structured_verdict _ _ _ _ _ HP HA HT HN).
  unfold text_verdict in V. rewrite (parseAnalysis_none _ HB) in V.
  split.
  - exact (f_equal v_status V).
  - exact (f_equal v_raw V).
Qed.

Lemma unparseable_text_witness :
  status (cors_response (reply_text (lit "Sneaker, about 40 minutes") None)) = 500
  /\ field "gemini_raw_output"
       (cors_response (reply_text (lit "Sneaker, about 40 minutes") None))
     = Some (VString (lit "Sneaker, about 40 minutes")).
Proof.
  apply (unparseable_text_is_500 RouteCors.POST
           (replies (reply_text (lit "Sneaker, about 40 minutes") None))
           sample_request
           (reply_text (lit "Sneaker, about 40 minutes") None)
           (lit "Sneaker, about 40 minutes")).
  - right; left; reflexivity.
  - eexists; split; reflexivity.
  - reflexivity.
  - discriminate.
  - left; reflexivity.
Defined.

(** ** C4: a label that is not a string *)

(** C4 fails on the code: the provider's text parses to an object whose
    [shoe_type] is the number 5; the check only asks for a truthy
    [shoe_type], so both structured handlers without context return 200
    and pass the number on as the label. *)
Lemma numeric_label_accepted :
  JSON_parse (cleanText label_5)
  = Some (JObject [(SHOE_TYPE, JNumber {| mant := 5; expo := 0 |});
                   (MINUTES, JNumber {| mant := 40; expo := 0 |})])
  /\ status (cors_response (reply_text label_5 None)) = 200
  /\ field "shoe_type" (cors_response (reply_text label_5 None))
     = Some (VJson (JNumber {| mant := 5; expo := 0 |}))
  /\ status (response (RouteJson.POST (replies (reply_text label_5 None))
                         sample_request)) = 200.
Proof. repeat split. Qed.

(** ** C5: minutes given as a string *)

(** C5: when the cleaned provider text parses to a value whose
    [recommended_time_minutes] is a string, a structured handler returns
    500 with the provider's text as [gemini_raw_output], and the body
    holds no [recommended_time_minutes] at all. *)
Theorem string_minutes_is_500 (POST : Handler) (g : Provider)
  (request : Request) (reply : GenerateContentResponse)
  (generatedText s : jsstring) (v : JSON) :
  In POST structured ->
  answered g (POST g request) reply ->
  firstText reply = Some generatedText ->
  JSON_parse (cleanText generatedText) = Some v ->
  prop v MINUTES = Some (JString s) ->
  status (response (POST g request)) = 500
  /\ field "gemini_raw_output" (response (POST g request))
     = Some (VString generatedText)
  /\ field "recommended_time_minutes" (response (POST g request)) = None.
Proof.
  intros HP HA HT HJ HM.
  assert (V := structured_verdict _ _ _ _ _ HP HA HT (parsed_nonempty _ _ HJ)).
  unfold text_verdict in V.
  rewrite (parseAnalysis_none generatedText) in V.
  - repeat split.
    + exact (f_equal v_status V).
    + exact (f_equal v_raw V).
    + exact (f_equal v_minutes V).
  - right. exists v. split; [exact HJ|]. right. now rewrite HM.
Qed.

Lemma string_minutes_witness :
  status (cors_response (reply_text minutes_as_text None)) = 500
  /\ field "gemini_raw_output" (cors_response (reply_text minutes_as_text None))
     = Some (VString minutes_as_text)
  /\ field "recommended_time_minutes"
       (cors_response (reply_text minutes_as_text None)) = None.
Proof.
  apply (string_minutes_is_500 RouteCors.POST
           (replies (reply_text minutes_as_text None)) sample_request
           (reply_text minutes_as_text None) minutes_as_text (lit "40")
           (JObject [(SHOE_TYPE, JString (lit "Sneaker"));
                     (MINUTES, JString (lit "40"))])).
  - right; left; reflexivity.
  - eexists; split; reflexivity.
  - reflexivity.
  - reflexivity.
  - reflexivity.
Defined.

(** ** C10: an empty label *)

(** C10: when the cleaned provider text parses to a value whose
    [shoe_type] is the empty string, a structured handler returns 500
    with the provider's text as [gemini_raw_output], and no label. *)
Theorem empty_label_is_500 (POST : Handler) (g : Provider)
  (request : Request) (reply : GenerateContentResponse)
  (generatedText : jsstring) (v : JSON) :
  In POST structured ->
  answered g (POST g request) reply ->
  firstText reply = Some generatedText ->
  JSON_parse (cleanText generatedText) = Some v ->
  prop v SHOE_TYPE = Some (JString []) ->
  status (response (POST g request)) = 500
  /\ field "gemini_raw_output" (response (POST g request))
     = Some (VString generatedText)
  /\ field "shoe_type" (response (POST g request)) = None.
Proof.
  intros HP HA HT HJ HL.
  assert (V := structured_verdict _ _ _ _ _ HP HA HT (parsed_nonempty _ _ HJ)).
  unfold text_verdict in V.
  rewrite (parseAnalysis_none generatedText) in V.
  - repeat split.
    + exact (f_equal v_status V).
    + exact (f_equal v_raw V).
    + exact (f_equal v_shoe_type V).
  - right. exists v. split; [exact HJ|]. left. now rewrite HL.
Qed.

Lemma empty_label_witness :
  status (response (RouteContext.POST (replies (reply_text label_empty None))
                      (context_request "35" "80"))) = 500
  /\ field "gemini_raw_output"
       (response (RouteContext.POST (replies (reply_text label_empty None))
                    (context_request "35" "80")))
     = Some (VString label_empty)
  /\ field "shoe_type"
       (response (RouteContext.POST (replies (reply_text label_empty None))
                    (context_request "35" "80"))) = None.
Proof.
  apply (empty_label_is_500 RouteContext.POST
           (replies (reply_text label_empty None)) (context_request "35" "80")
           (reply_text label_empty None) label_empty
           (JObject [(SHOE_TYPE, JString []);
                     (MINUTES, JNumber {| mant := 40; expo := 0 |})])).
  - right; right; left; reflexivity.
  - eexists; split; reflexivity.
  - reflexivity.
  - reflexivity.
  - reflexivity.
Defined.

(** ** C6 and C7: temperature and humidity in the context-aware handler *)

Lemma context_rejects (g : Provider) (request : Request) (f : File) :
  upload request = Some f -> readings request = None ->
  RouteContext.POST g request
  = done (json [("error"%string, VString RouteContext.BOTH_NUMERIC)] 400 corsHeaders).
Proof.
  unfold upload, readings, RouteContext.POST.
  destruct (formData request) as [fd|]; [|discriminate].
  destruct (formData_get (lit "file") fd) as [[|f']|]; try discriminate.
  destruct (size f' =? 0); [discriminate|]. intros _. cbv zeta.
  destruct (RouteContext.optional_number (formData_get (lit "humidity") fd))
    as [h|]; [|reflexivity].
  destruct (RouteContext.optional_number (formData_get (lit "temperature") fd))
    as [t|]; [|reflexivity].
  destruct (isNaN h || isNaN t); [reflexivity | discriminate].
Qed.

(** C6, as stated, fails: a non-empty image with neither temperature
    nor humidity is rejected with 400 for those fields. *)
Lemma readings_are_not_optional :
  upload sample_request = Some sample_file
  /\ formData sample_request = Returns [(lit "file", EntryFile sample_file)]
  /\ status (response (RouteContext.POST (replies (reply_text sneaker_40 None))
                         sample_request)) = 400
  /\ field "error"
       (response (RouteContext.POST (replies (reply_text sneaker_40 None))
                    sample_request))
     = Some (VString RouteContext.BOTH_NUMERIC).
Proof. repeat split. Qed.

(** C6, amended: in the context-aware handler temperature and humidity
    are required.  A request with a non-empty image that supplies
    neither is rejected with 400 and the message that both must be
    numeric, and the provider is not called; the provider is called
    exactly when both are supplied, non-empty and numeric. *)
Theorem readings_are_required (g : Provider) (request : Request)
  (fd : FormData) (f : File) :
  formData request = Returns fd -> upload request = Some f ->
  (formData_get (lit "humidity") fd = None ->
   formData_get (lit "temperature") fd = None ->
   status (response (RouteContext.POST g request)) = 400
   /\ field "error" (response (RouteContext.POST g request))
      = Some (VString RouteContext.BOTH_NUMERIC)
   /\ calls (RouteContext.POST g request) = [])
  /\ (calls (RouteContext.POST g request) <> [] <->
      exists h t,
        RouteContext.optional_number (formData_get (lit "humidity") fd) = Some h
        /\ RouteContext.optional_number (formData_get (lit "temperature") fd) = Some t
        /\ isNaN h = false /\ isNaN t = false).
Proof.
  intros HF HU. split.
  - intros Hh Ht.
    rewrite (context_rejects g request f HU); [repeat split|].
    unfold readings. now rewrite HF, Hh.
  - destruct (readings request) as [[t h]|] eqn:R.
    + unfold readings in R. rewrite HF in R.
      destruct (RouteContext.optional_number (formData_get (lit "humidity") fd))
        as [h'|] eqn:Eh; [|discriminate].
      destruct (RouteContext.optional_number (formData_get (lit "temperature") fd))
        as [t'|] eqn:Et; [|discriminate].
      destruct (isNaN h' || isNaN t') eqn:EN; [discriminate|].
      apply orb_false_iff in EN. split.
      * intros _. exists h', t'. tauto.
      * intros _. revert HU. unfold upload, RouteContext.POST. rewrite HF.
        destruct (formData_get (lit "file") fd) as [[|f']|]; try discriminate.
        destruct (size f' =? 0); [discriminate|]. intros _. cbv zeta.
        rewrite Eh, Et. destruct EN as [-> ->]. discriminate.
    + rewrite (context_rejects g request f HU R). split.
      * intros C. now contradiction C.
      * intros [h [t [Eh [Et [Nh Nt]]]]]. exfalso.
        unfold readings in R. rewrite HF, Eh, Et, Nh, Nt in R. discriminate.
Qed.

Lemma readings_are_required_witness :
  (formData_get (lit "humidity") [(lit "file", EntryFile sample_file)] = None ->
   formData_get (lit "temperature") [(lit "file", EntryFile sample_file)] = None ->
   status (response (RouteContext.POST (replies (reply_text sneaker_40 None))
                       sample_request)) = 400
   /\ field "error"
        (response (RouteContext.POST (replies (reply_text sneaker_40 None))
                     sample_request))
      = Some (VString RouteContext.BOTH_NUMERIC)
   /\ calls (RouteContext.POST (replies (reply_text sneaker_40 None))
               sample_request) = [])
  /\ (calls (RouteContext.POST (replies (reply_text sneaker_40 None))
               sample_request) <> [] <->
      exists h t,
        RouteContext.optional_number
          (formData_get (lit "humidity") [(lit "file", EntryFile sample_file)])
        = Some h
        /\ RouteContext.optional_number
             (formData_get (lit "temperature") [(lit "file", EntryFile sample_file)])
           = Some t
        /\ isNaN h = false /\ isNaN t = false).
Proof.
  apply (readings_are_required (replies (reply_text sneaker_40 None))
           sample_request [(lit "file", EntryFile sample_file)] sample_file).
  - reflexivity.
  - reflexivity.
Defined.

(** C7: in the context-aware handler, a request with a non-empty image
    in which exactly one of temperature and humidity is present, or in
    which the value of either does not convert to a number, is answered
    400 with the message "Missing or invalid humidity/temperature. Both
    must be numeric.", which names both fields; the provider is not
    called. *)
Theorem partial_readings_rejected (g : Provider) (request : Request)
  (fd : FormData) (f : File) :
  formData request = Returns fd -> upload request = Some f ->
  ((formData_get (lit "humidity") fd = None
    /\ formData_get (lit "temperature") fd <> None)
   \/ (formData_get (lit "humidity") fd <> None
       /\ formData_get (lit "temperature") fd = None)
   \/ (exists raw, formData_get (lit "humidity") fd = Some raw
                   /\ isNaN (Number raw) = true)
   \/ (exists raw, formData_get (lit "temperature") fd = Some raw
                   /\ isNaN (Number raw) = true)) ->
  status (response (RouteContext.POST g request)) = 400
  /\ field "error" (response (RouteContext.POST g request))
     = Some (VString RouteContext.BOTH_NUMERIC)
  /\ includes (lit "humidity") RouteContext.BOTH_NUMERIC = true
  /\ includes (lit "temperature") RouteContext.BOTH_NUMERIC = true
  /\ includes (lit "Both must be") RouteContext.BOTH_NUMERIC = true
  /\ calls (RouteContext.POST g request) = [].
Proof.
  intros HF HU HC.
  rewrite (context_rejects g request f HU); [repeat split|].
  unfold readings. rewrite HF.
  destruct (RouteContext.optional_number (formData_get (lit "humidity") fd))
    as [h|] eqn:Eh; [|reflexivity].
  destruct (RouteContext.optional_number (formData_get (lit "temperature") fd))
    as [t|] eqn:Et; [|reflexivity].
  destruct HC as [[Hh _] | [[_ Ht] | [[raw [Hr HN]] | [raw [Hr HN]]]]].
  - rewrite Hh in Eh. discriminate.
  - rewrite Ht in Et. discriminate.
  - rewrite Hr in Eh. unfold RouteContext.optional_number in Eh.
    destruct (entry_truthy (Some raw)); [|discriminate].
    injection Eh as <-. now rewrite HN.
  - rewrite Hr in Et. unfold RouteContext.optional_number in Et.
    destruct (entry_truthy (Some raw)); [|discriminate].
    injection Et as <-. rewrite HN. now rewrite orb_true_r.
Qed.

Lemma partial_readings_witness :
  status (response (RouteContext.POST (replies (reply_text sneaker_40 None))
                      (context_request "35" "damp"))) = 400
  /\ field "error"
       (response (RouteContext.POST (replies (reply_text sneaker_40 None))
                    (context_request "35" "damp")))
     = Some (VString RouteContext.BOTH_NUMERIC)
  /\ includes (lit "humidity") RouteContext.BOTH_NUMERIC = true
  /\ includes (lit "temperature") RouteContext.BOTH_NUMERIC = true
  /\ includes (lit "Both must be") RouteContext.BOTH_NUMERIC = true
  /\ calls (RouteContext.POST (replies (reply_text sneaker_40 None))
              (context_request "35" "damp")) = [].
Proof.
  apply (partial_readings_rejected (replies (reply_text sneaker_40 None))
           (context_request "35" "damp")
           [(lit "file", EntryFile sample_file);
            (lit "temperature", EntryString (lit "35"));
            (lit "humidity", EntryString (lit "damp"))]
           sample_file).
  - reflexivity.
  - reflexivity.
  - right; right; left. exists (EntryString (lit "damp")).
    split; reflexivity.
Defined.

(** ** C8: a blocked reply *)



(** ** C9: a missing or empty upload *)

(** C9: when the form has no [file] entry, or the entry is a string, or
    it is a file of size zero, every handler returns 400 with an error
    message in the body and makes no call to the provider. *)
Theorem missing_file_rejected (POST : Handler) (g : Provider)
  (request : Request) (fd : FormData) :
  In POST handlers ->
  formData request = Returns fd ->
  (formData_get (lit "file") fd = None
   \/ (exists s, formData_get (lit "file") fd = Some (EntryString s))
   \/ (exists f, formData_get (lit "file") fd = Some (EntryFile f)
                 /\ size f = 0)) ->
  status (response (POST g request)) = 400
  /\ (field "error" (response (POST g request)) = Some (VString MISSING_FILE)
      \/ field "error" (response (POST g request)) = Some (VString EMPTY_FILE))
  /\ calls (POST g request) = [].
Proof.
  intros HP HF HC.
  destruct HP as [<- | [<- | [<- | [<- | []]]]];
    [unfold RouteText.POST | unfold RouteJson.POST
     | unfold RouteCors.POST | unfold RouteContext.POST];
    rewrite HF;
    (destruct HC as [-> | [[s ->] | [f [-> ->]]]];
     [ repeat split; left; reflexivity
     | repeat split; left; reflexivity
     | repeat split; right; reflexivity ]).
Qed.

Lemma missing_file_witness :
  status (response (RouteCors.POST (replies (reply_text sneaker_40 None))
                      {| formData := Returns [(lit "file", EntryString (lit "shoe.jpg"))] |}))
  = 400
  /\ (field "error"
        (response (RouteCors.POST (replies (reply_text sneaker_40 None))
                     {| formData := Returns [(lit "file", EntryString (lit "shoe.jpg"))] |}))
      = Some (VString MISSING_FILE)
      \/ field "error"
           (response (RouteCors.POST (replies (reply_text sneaker_40 None))
                        {| formData := Returns [(lit "file", EntryString (lit "shoe.jpg"))] |}))
         = Some (VString EMPTY_FILE))
  /\ calls (RouteCors.POST (replies (reply_text sneaker_40 None))
              {| formData := Returns [(lit "file", EntryString (lit "shoe.jpg"))] |})
     = [].
Proof.
  apply (missing_file_rejected RouteCors.POST
           (replies (reply_text sneaker_40 None))
           {| formData := Returns [(lit "file", EntryString (lit "shoe.jpg"))] |}
           [(lit "file", EntryString (lit "shoe.jpg"))]).
  - right; right; left; reflexivity.
  - reflexivity.
  - right; left. exists (lit "shoe.jpg"). reflexivity.
Defined.

(** * The built-ins and the handlers at work *)

Example parse_two_fields :
  JSON_parse sneaker_40
  = Some (JObject [(SHOE_TYPE, JString (lit "Sneaker, medium thickness"));
                   (MINUTES, JNumber {| mant := 40; expo := 0 |})]).
Proof. reflexivity. Qed.

Example parse_nested :
  JSON_parse (q " [1, -2.50e+3, true, null, {'a': {}, 'b': [], 'a': 'xA\n'}] ")
  = Some (JArray [JNumber {| mant := 1; expo := 0 |};
                  JNumber {| mant := -250; expo := 1 |};
                  JBool true; JNull;
                  JObject [(lit "a", JString [120; 65; 10]);
                           (lit "b", JArray [])]]).
Proof. reflexivity. Qed.

Example parse_rejects :
  map JSON_parse
      [lit "01"; lit "[1,]"; q "{'a':1,}"; lit "tru"; lit ""; lit "NaN";
       lit "1."; lit ".5"; lit "+1"; q "{'a'}"; q "'a"; lit "[1 2]";
       q "{'a': 1} x"; 160 :: lit "1"; 65279 :: lit "{}"]
  = [None; None; None; None; None; None; None; None; None; None; None; None;
     None; None; None].
Proof. reflexivity. Qed.

Example clean_fenced_text :
  cleanText (lit "  " ++ fenced [10] sneaker_40 [32; 10] ++ [10]) = sneaker_40.
Proof. reflexivity. Qed.

Example number_of_text :
  map (fun s => StringToNumber.convert (lit s))
      [" 35 "; "80.5"; "-.5e-2"; "0x1F"; ""; "Infinity"; "-Infinity";
       "damp"; "1e"; "."; "0b102"; "1 2"]%string
  = [Finite {| mant := 35; expo := 0 |}; Finite {| mant := 805; expo := -1 |};
     Finite {| mant := -5; expo := -3 |}; Finite {| mant := 31; expo := 0 |};
     Finite {| mant := 0; expo := 0 |}; Infinity false; Infinity true;
     NaN; NaN; NaN; NaN; NaN].
Proof. reflexivity. Qed.

Example base64_of_bytes :
  map Base64.encode [lit "Man"; lit "Ma"; lit "M"]
  = [lit "TWFu"; lit "TWE="; lit "TQ=="].
Proof. reflexivity. Qed.

Example tiny_number_is_falsy :
  truthy (JSON_parse (lit "1e-400")) = false
  /\ truthy (JSON_parse (lit "5e-324")) = true.
Proof. split; vm_compute; reflexivity. Qed.

(** A JPEG upload answered by the two-field structure: 200 with the
    label, the minutes, and the name and size of the upload. *)
Example sneaker_scenario :
  cors_response (reply_text sneaker_40 None)
  = json [("filename", VString (lit "shoe.jpg"));
          ("filesize", VNumber (integer 4));
          ("shoe_type", VJson (JString (lit "Sneaker, medium thickness")));
          ("recommended_time_minutes", VJson (JNumber {| mant := 40; expo := 0 |}));
          ("model_used", VString MODEL)]%string
         200 corsHeaders.
Proof. reflexivity. Qed.

(** The same with temperature 35 and humidity 80, which are echoed. *)
Example context_scenario :
  response (RouteContext.POST (replies (reply_text sneaker_40 None))
              (context_request "35" "80"))
  = json [("filename", VString (lit "shoe.jpg"));
          ("filesize", VNumber (integer 4));
          ("shoe_type", VJson (JString (lit "Sneaker, medium thickness")));
          ("recommended_time_minutes", VJson (JNumber {| mant := 40; expo := 0 |}));
          ("temperature", VNumber (integer 35));
          ("humidity", VNumber (integer 80));
          ("model_used", VString MODEL)]%string
         200 corsHeaders.
Proof. reflexivity. Qed.

(** A text that is itself fenced is cleaned once: fencing it again
    leaves a fence inside, which [JSON.parse] rejects. *)
Example fence_is_stripped_once :
  parseAnalysis (fenced [10] sneaker_40 [10]) <> None
  /\ parseAnalysis (fenced [10] (fenced [10] sneaker_40 [10]) [10]) = None.
Proof. split; [discriminate | reflexivity]. Qed.

(** * Further properties of the normalization *)

Lemma trimStart_nil (w : jsstring) : all_spaces w -> trimStart w = [].
Proof.
  intros H. rewrite <- (app_nil_r w). now rewrite trimStart_spaces.
Qed.

Lemma trimStart_nil_spaces (t : jsstring) : trimStart t = [] -> all_spaces t.
Proof.
  intros H. destruct (trimStart_split t) as [w [Hw E]].
  rewrite H, app_nil_r in E. now subst.
Qed.

Lemma trimEnd_spaces (s w : jsstring) :
  all_spaces w -> trimEnd (s ++ w) = trimEnd s.
Proof.
  intros H. unfold trimEnd. rewrite rev_app_distr.
  now rewrite trimStart_spaces by now apply all_spaces_rev.
Qed.

Lemma trimEnd_app (x t : jsstring) :
  trimEnd t <> [] -> trimEnd (x ++ t) = x ++ trimEnd t.
Proof.
  unfold trimEnd. intros H. rewrite rev_app_distr.
  destruct (trimStart (rev t)) as [|c r] eqn:E; [now contradiction H|].
  rewrite (trimStart_app _ _ (rev x) _ E).
  change (c :: r ++ rev x) with ((c :: r) ++ rev x).
  now rewrite rev_app_distr, rev_involutive.
Qed.

Lemma trim_padding (ws1 t ws2 : jsstring) :
  all_spaces ws1 -> all_spaces ws2 -> trim (ws1 ++ t ++ ws2) = trim t.
Proof.
  intros W1 W2. unfold trim. rewrite trimStart_spaces by assumption.
  destruct (trimStart t) as [|c r] eqn:E.
  - apply trimStart_nil_spaces in E.
    now rewrite (trimStart_nil (t ++ ws2)) by now apply all_spaces_app.
  - rewrite (trimStart_app t r ws2 c E).
    change (c :: r ++ ws2) with ((c :: r) ++ ws2).
    now apply trimEnd_spaces.
Qed.

Lemma parsed_trim_nonempty (t : jsstring) (v : JSON) :
  JSON_parse t = Some v -> trimStart t <> [] /\ trimEnd t <> [].
Proof.
  intros H. split; intros E.
  - apply parse_trimStart in H. rewrite E in H. discriminate H.
  - apply parse_trimEnd in H. rewrite E in H. discriminate H.
Qed.

Lemma replace_open_head (c : char) (y : jsstring) :
  c <> 96 -> replace_open (c :: y) = c :: y.
Proof.
  intros H. unfold replace_open.
  change FENCE_JSON with (96 :: [96; 96; 106; 115; 111; 110]).
  cbn [strip_prefix]. destruct (N.eqb_spec 96 c) as [E | _]; [|reflexivity].
  now contradiction H.
Qed.

(** X1: white space around the provider's text plays no part: the text
    with any runs of white space before and after it is cleaned, and so
    normalized, exactly as the text itself. *)
Theorem padding_is_ignored (ws1 t ws2 : jsstring) :
  all_spaces ws1 -> all_spaces ws2 ->
  cleanText (ws1 ++ t ++ ws2) = cleanText t
  /\ parseAnalysis (ws1 ++ t ++ ws2) = parseAnalysis t.
Proof.
  intros W1 W2.
  assert (E : cleanText (ws1 ++ t ++ ws2) = cleanText t).
  { unfold cleanText. now rewrite trim_padding. }
  split; [exact E|]. unfold parseAnalysis. now rewrite E.
Qed.

Lemma padding_is_ignored_witness :
  cleanText ([32; 10] ++ sneaker_40 ++ [13; 10; 160])
  = cleanText sneaker_40
  /\ parseAnalysis ([32; 10] ++ sneaker_40 ++ [13; 10; 160])
     = parseAnalysis sneaker_40.
Proof.
  apply (padding_is_ignored [32; 10] sneaker_40 [13; 10; 160]);
    repeat constructor.
Defined.

(** X2: the two fences are stripped independently.  For a text that
    [JSON.parse] accepts, a closing fence alone after it, or the tagged
    opening fence alone before it, is removed and the text is
    normalized as without it. *)
Theorem lone_fence_is_stripped (t ws : jsstring) (v : JSON) :
  JSON_parse t = Some v -> all_spaces ws ->
  parseAnalysis (t ++ ws ++ FENCE) = parseAnalysis t
  /\ parseAnalysis (FENCE_JSON ++ ws ++ t) = parseAnalysis t.
Proof.
  intros H W.
  destruct (parsed_trim_nonempty t v H) as [NS NE].
  assert (C : JSON_parse (cleanText t) = Some v).
  { rewrite (cleanText_parsed t v H). now apply parse_trim. }
  assert (C1 : JSON_parse (cleanText (t ++ ws ++ FENCE)) = Some v).
  { rewrite <- (parse_trim t v H). f_equal.
    destruct (trimStart t) as [|c r] eqn:S; [now contradiction NS|].
    assert (P : JSON_parse (c :: r) = Some v)
      by (rewrite <- S; now apply parse_trimStart).
    assert (Hc : c <> 96).
    { intros ->. rewrite parse_cons_stray in P by now left. discriminate P. }
    assert (T : trim t = trimEnd (c :: r)) by (unfold trim; now rewrite S).
    assert (A : trim (t ++ ws ++ FENCE) = c :: (r ++ ws ++ FENCE)).
    { unfold trim. rewrite (trimStart_app t r _ c S).
      replace (c :: r ++ ws ++ FENCE)
        with (((c :: r) ++ ws ++ [96; 96]) ++ [96])
        by (rewrite <- !app_assoc; reflexivity).
      now apply trimEnd_fixed. }
    unfold cleanText. rewrite A, (replace_open_head c _ Hc), T.
    destruct (trimEnd_split (c :: r)) as [w [Hw E]].
    destruct (rev (trimEnd (c :: r))) as [|z l] eqn:R.
    { apply (f_equal (@rev char)) in R. rewrite rev_involutive in R.
      simpl in R. rewrite R in E. simpl in E. subst w.
      inversion Hw as [|? ? Hs _]. rewrite (trimStart_head _ _ _ S) in Hs.
      discriminate Hs. }
    apply (f_equal (@rev char)) in R. rewrite rev_involutive in R. simpl in R.
    assert (Hz : isSpace z = false) by exact (trimEnd_last _ _ _ R).
    change (c :: r ++ ws ++ FENCE) with ((c :: r) ++ ws ++ FENCE).
    rewrite E at 1. rewrite R, <- !app_assoc.
    change ([z] ++ w ++ ws ++ FENCE) with (z :: w ++ ws ++ FENCE).
    rewrite (app_assoc w ws FENCE).
    apply replace_close_fenced; [exact Hz | now apply all_spaces_app]. }
  assert (C2 : JSON_parse (cleanText (FENCE_JSON ++ ws ++ t)) = Some v).
  { unfold cleanText, trim.
    change (FENCE_JSON ++ ws ++ t)
      with (96 :: ([96; 96; 106; 115; 111; 110] ++ ws ++ t)).
    rewrite trimStart_fixed by reflexivity.
    change (96 :: [96; 96; 106; 115; 111; 110] ++ ws ++ t)
      with (FENCE_JSON ++ ws ++ t).
    rewrite app_assoc, trimEnd_app by exact NE.
    rewrite <- app_assoc, replace_open_fenced, trimStart_spaces by assumption.
    pose proof (parse_trimStart _ _ (parse_trimEnd t v H)) as P.
    destruct (parse_unfenced _ _ P) as [_ ->]. exact P. }
  unfold parseAnalysis. rewrite C, C1, C2. now split.
Qed.

Lemma lone_fence_witness :
  parseAnalysis (sneaker_40 ++ [10] ++ FENCE) = parseAnalysis sneaker_40
  /\ parseAnalysis (FENCE_JSON ++ [10] ++ sneaker_40) = parseAnalysis sneaker_40.
Proof.
  apply (lone_fence_is_stripped sneaker_40 [10]
           (JObject [(SHOE_TYPE, JString (lit "Sneaker, medium thickness"));
                     (MINUTES, JNumber {| mant := 40; expo := 0 |})])).
  - reflexivity.
  - repeat constructor.
Defined.

(** X3: only the tag [json], in lower case and right after the three
    backquotes, opens a fence that is stripped.  A text whose trimmed
    form starts with a backquote but not with the tagged fence is never
    normalized, whatever follows. *)
Theorem foreign_fence_is_rejected (generatedText r : jsstring) :
  trim generatedText = 96 :: r ->
  strip_prefix FENCE_JSON (trim generatedText) = None ->
  JSON_parse (cleanText generatedText) = None
  /\ parseAnalysis generatedText = None.
Proof.
  intros T S.
  assert (E : JSON_parse (cleanText generatedText) = None).
  { unfold cleanText, replace_open. rewrite S, T.
    destruct (at_close (96 :: r)) eqn:A.
    - now rewrite replace_close_at.
    - rewrite replace_close_cons by exact A.
      apply parse_cons_stray. now left. }
  split; [exact E|]. apply parseAnalysis_none. now left.
Qed.

Lemma foreign_fence_witness :
  JSON_parse (cleanText untagged) = None /\ parseAnalysis untagged = None.
Proof.
  apply (foreign_fence_is_rejected untagged
           ([96; 96; 10] ++ sneaker_40 ++ [10] ++ lit "```")).
  - reflexivity.
  - reflexivity.
Defined.

(** * Further properties of the handlers *)

(** Case analysis along a handler: the form, the upload, the readings,
    the provider's result, its text, the normalization, the feedback. *)
Ltac walk :=
  repeat match goal with
    | |- context [match formData ?r with _ => _ end] =>
        destruct (formData r) as [?fd | ?e] eqn:?HF
    | |- context [match formData_get ?k ?fd with _ => _ end] =>
        destruct (formData_get k fd) as [[?s | ?f] |] eqn:?HG
    | |- context [if size ?f =? 0 then _ else _] =>
        destruct (size f =? 0) eqn:?HS
    | |- context [match RouteContext.optional_number ?x with _ => _ end] =>
        destruct (RouteContext.optional_number x) as [?n |] eqn:?HN
    | |- context [if isNaN ?h || isNaN ?t then _ else _] =>
        destruct (isNaN h || isNaN t) eqn:?HNaN
    | |- context [match ?g (request_for ?p ?f) with _ => _ end] =>
        destruct (g (request_for p f)) as [?reply | ?e] eqn:?HC
    | |- context [match firstText ?r with _ => _ end] =>
        destruct (firstText r) as [[| ?c ?t] |] eqn:?HT
    | |- context [match parseAnalysis ?t with _ => _ end] =>
        destruct (parseAnalysis t) as [?a |] eqn:?HP
    | |- context [match promptFeedback ?r with _ => _ end] =>
        destruct (promptFeedback r) as [[[[| ?c ?t] |] ?ratings] |] eqn:?HB
    | _ => progress cbv zeta
    end.

Ltac unfold_handlers :=
  unfold RouteText.POST, RouteJson.POST, RouteCors.POST, RouteContext.POST,
    RouteText.answer, RouteJson.answer, RouteCors.answer, RouteContext.answer,
    RouteText.caught, RouteJson.caught, RouteCors.caught, RouteContext.caught.

Ltac each_handler HP :=
  destruct HP as [<- | [<- | [<- | [<- | []]]]].

(** X4: a handler answers with one of four statuses: 200, 400, 403 or
    500, whatever the request and whatever the provider does. *)
Theorem status_is_one_of_four (POST : Handler) (g : Provider)
  (request : Request) :
  In POST handlers ->
  In (status (response (POST g request))) [200; 400; 403; 500].
Proof.
  intros HP. each_handler HP; unfold_handlers; walk; simpl; tauto.
Qed.

Lemma status_is_one_of_four_witness :
  In (status (response (RouteContext.POST (fails OtherValue)
                          (context_request "35" "80"))))
     [200; 400; 403; 500].
Proof.
  apply (status_is_one_of_four RouteContext.POST (fails OtherValue)
           (context_request "35" "80")).
  right; right; right; left; reflexivity.
Defined.

(** The part of [walk] that stops before the provider is called. *)
Ltac walk_request :=
  repeat match goal with
    | |- context [match formData ?r with _ => _ end] =>
        destruct (formData r) as [?fd | ?e] eqn:?HF
    | |- context [match formData_get ?k ?fd with _ => _ end] =>
        destruct (formData_get k fd) as [[?s | ?f] |] eqn:?HG
    | |- context [if size ?f =? 0 then _ else _] =>
        destruct (size f =? 0) eqn:?HS
    | |- context [match RouteContext.optional_number ?x with _ => _ end] =>
        destruct (RouteContext.optional_number x) as [?n |] eqn:?HN
    | |- context [if isNaN ?h || isNaN ?t then _ else _] =>
        destruct (isNaN h || isNaN t) eqn:?HNaN
    | _ => progress cbv zeta
    end.

(** X5: in the three handlers without context fields, once the form is
    decoded, the answer is 400 exactly when the request has no
    non-empty file under [file], and exactly then the provider is not
    called. *)
Theorem invalid_upload_iff_400 (POST : Handler) (g : Provider)
  (request : Request) (fd : FormData) :
  In POST plain -> formData request = Returns fd ->
  (status (response (POST g request)) = 400 <-> upload request = None)
  /\ (calls (POST g request) = [] <-> upload request = None).
Proof.
  intros HP HF.
  destruct HP as [<- | [<- | [<- | []]]];
    unfold_handlers; unfold upload; rewrite HF; walk; simpl;
    (split; split; intros X; first [reflexivity | discriminate X]).
Qed.

Lemma invalid_upload_witness :
  (status (response (RouteJson.POST (replies (reply_text sneaker_40 None))
                       sample_request)) = 400
   <-> upload sample_request = None)
  /\ (calls (RouteJson.POST (replies (reply_text sneaker_40 None))
               sample_request) = []
      <-> upload sample_request = None).
Proof.
  apply (invalid_upload_iff_400 RouteJson.POST
           (replies (reply_text sneaker_40 None)) sample_request
           [(lit "file", EntryFile sample_file)]).
  - right; left; reflexivity.
  - reflexivity.
Defined.

(** X6: in the context-aware handler, once the form is decoded, the
    answer is 400 exactly when the upload is invalid or the readings
    are not both supplied, non-empty and numeric, and exactly then the
    provider is not called. *)
Theorem context_validation_iff_400 (g : Provider) (request : Request)
  (fd : FormData) :
  formData request = Returns fd ->
  (status (response (RouteContext.POST g request)) = 400
   <-> upload request = None \/ readings request = None)
  /\ (calls (RouteContext.POST g request) = []
      <-> upload request = None \/ readings request = None).
Proof.
  intros HF. unfold_handlers. unfold upload, readings. rewrite HF.
  walk; simpl;
    (split; split; intros X;
     first [ reflexivity | discriminate X | now left | now right
           | destruct X as [X | X]; discriminate X ]).
Qed.

Lemma context_validation_witness :
  (status (response (RouteContext.POST (replies (reply_text sneaker_40 None))
                       (context_request "35" ""))) = 400
   <-> upload (context_request "35" "") = None
       \/ readings (context_request "35" "") = None)
  /\ (calls (RouteContext.POST (replies (reply_text sneaker_40 None))
               (context_request "35" "")) = []
      <-> upload (context_request "35" "") = None
          \/ readings (context_request "35" "") = None).
Proof.
  apply (context_validation_iff_400 (replies (reply_text sneaker_40 None))
           (context_request "35" "")
           [(lit "file", EntryFile sample_file);
            (lit "temperature", EntryString (lit "35"));
            (lit "humidity", EntryString (lit ""))]).
  reflexivity.
Defined.

(** X7: what the provider is sent.  A handler calls the provider at
    most once, and the call names the model [gemini-2.5-flash] and
    holds one message of role [user] with two parts: the instruction
    text, then the uploaded file as inline data. *)
Theorem provider_sees_the_upload (POST : Handler) (g : Provider)
  (request : Request) (params : GenerateContentParameters) :
  In POST handlers -> In params (calls (POST g request)) ->
  calls (POST g request) = [params]
  /\ model params = MODEL
  /\ exists f prompt,
       upload request = Some f
       /\ contents params
          = [ {| role := lit "user";
                 parts := [TextPart prompt; fileToGenerativePart f] |} ].
Proof.
  intros HP. each_handler HP; unfold_handlers; unfold upload;
    walk_request; simpl; intros HI; try contradiction;
    destruct HI as [<- | []];
    (split; [reflexivity|]; split; [reflexivity|]);
    eexists; eexists; split; reflexivity.
Qed.

Lemma provider_sees_the_upload_witness :
  calls (RouteCors.POST (replies (reply_text sneaker_40 None)) sample_request)
  = [request_for RouteCors.PROMPT sample_file]
  /\ model (request_for RouteCors.PROMPT sample_file) = MODEL
  /\ exists f prompt,
       upload sample_request = Some f
       /\ contents (request_for RouteCors.PROMPT sample_file)
          = [ {| role := lit "user";
                 parts := [TextPart prompt; fileToGenerativePart f] |} ].
Proof.
  apply (provider_sees_the_upload RouteCors.POST
           (replies (reply_text sneaker_40 None)) sample_request
           (request_for RouteCors.PROMPT sample_file)).
  - right; right; left; reflexivity.
  - left; reflexivity.
Defined.

(** X8: when the provider call throws, the outer [catch] answers 500;
    [details] is the message of the error, or the handler's fixed text
    when what was thrown is not an error. *)
Theorem provider_failure_is_500 (POST : Handler) (g : Provider)
  (request : Request) (params : GenerateContentParameters) (e : Thrown) :
  In POST handlers ->
  calls (POST g request) = [params] -> g params = Throws e ->
  status (response (POST g request)) = 500
  /\ exists fallback,
       In fallback fallbacks
       /\ field "details" (response (POST g request))
          = Some (VString (message_of e fallback)).
Proof.
  intros HP. each_handler HP; unfold_handlers;
    walk_request; simpl; intros Hcall Hres; try discriminate Hcall;
    injection Hcall as <-; rewrite Hres;
    (split; [reflexivity|]; eexists; split; [|reflexivity]; simpl; tauto).
Qed.

Lemma provider_failure_witness :
  status (response (RouteCors.POST (fails (ErrorObject (lit "fetch failed")))
                      sample_request)) = 500
  /\ exists fallback,
       In fallback fallbacks
       /\ field "details"
            (response (RouteCors.POST (fails (ErrorObject (lit "fetch failed")))
                         sample_request))
          = Some (VString (message_of (ErrorObject (lit "fetch failed")) fallback)).
Proof.
  apply (provider_failure_is_500 RouteCors.POST
           (fails (ErrorObject (lit "fetch failed"))) sample_request
           (request_for RouteCors.PROMPT sample_file)).
  - right; right; left; reflexivity.
  - reflexivity.
  - reflexivity.
Defined.

(** X9: when the body cannot be decoded as a form, the outer [catch]
    answers 500 with the message of the error in [details], and the
    provider is not called. *)
Theorem malformed_form_is_500 (POST : Handler) (g : Provider)
  (request : Request) (e : Thrown) :
  In POST handlers -> formData request = Throws e ->
  status (response (POST g request)) = 500
  /\ (exists fallback,
         In fallback fallbacks
         /\ field "details" (response (POST g request))
            = Some (VString (message_of e fallback)))
  /\ calls (POST g request) = [].
Proof.
  intros HP HF. each_handler HP; unfold_handlers; rewrite HF;
    (split; [reflexivity|]; split; [|reflexivity];
     eexists; split; [|reflexivity]; simpl; tauto).
Qed.

Lemma malformed_form_witness :
  status (response (RouteText.POST (replies (reply_text sneaker_40 None))
                      {| formData := Throws OtherValue |})) = 500
  /\ (exists fallback,
         In fallback fallbacks
         /\ field "details"
              (response (RouteText.POST (replies (reply_text sneaker_40 None))
                           {| formData := Throws OtherValue |}))
            = Some (VString (message_of OtherValue fallback)))
  /\ calls (RouteText.POST (replies (reply_text sneaker_40 None))
              {| formData := Throws OtherValue |}) = [].
Proof.
  apply (malformed_form_is_500 RouteText.POST
           (replies (reply_text sneaker_40 None))
           {| formData := Throws OtherValue |} OtherValue).
  - left; reflexivity.
  - reflexivity.
Defined.

(** X10: a reply without text and without a (non-empty) block reason is
    an unexpected reply: 500, and [full_response_debug] is the whole
    reply as received. *)
Theorem unexpected_reply_is_500 (POST : Handler) (g : Provider)
  (request : Request) (reply : GenerateContentResponse) :
  In POST handlers ->
  answered g (POST g request) reply ->
  firstText reply = None \/ firstText reply = Some [] ->
  (forall feedback, promptFeedback reply = Some feedback ->
     blockReason feedback = None \/ blockReason feedback = Some []) ->
  status (response (POST g request)) = 500
  /\ field "full_response_debug" (response (POST g request))
     = Some (VResponse reply).
Proof.
  intros HP HA HT HB.
  pose proof (silent_reply _ _ _ _ HP HA HT) as H.
  destruct (promptFeedback reply) as [[[[|c r]|] ratings]|]; try exact H.
  destruct (HB _ eq_refl) as [X | X]; discriminate X.
Qed.

Lemma unexpected_reply_witness :
  status (cors_response (reply_empty None)) = 500
  /\ field "full_response_debug" (cors_response (reply_empty None))
     = Some (VResponse (reply_empty None)).
Proof.
  apply (unexpected_reply_is_500 RouteCors.POST (replies (reply_empty None))
           sample_request (reply_empty None)).
  - right; right; left; reflexivity.
  - eexists; split; reflexivity.
  - left; reflexivity.
  - intros feedback X. discriminate X.
Defined.

(** X11: 403 means blocked and nothing else.  When the provider has
    answered, the status is 403 exactly when the reply has no text (or
    an empty one) and its feedback carries a non-empty block reason; a
    reply that has both a text and a block reason is handled as text. *)
Theorem blocked_iff_403 (POST : Handler) (g : Provider)
  (request : Request) (reply : GenerateContentResponse) :
  In POST handlers ->
  answered g (POST g request) reply ->
  (status (response (POST g request)) = 403
   <-> (firstText reply = None \/ firstText reply = Some [])
       /\ exists feedback reason,
            promptFeedback reply = Some feedback
            /\ blockReason feedback = Some reason /\ reason <> []).
Proof.
  intros HP [params [Hcall Hres]]. revert Hcall Hres.
  each_handler HP; unfold_handlers;
    walk_request; simpl; intros Hcall Hres; try discriminate Hcall;
    injection Hcall as <-; rewrite Hres; walk; simpl;
    (split;
     [ intros X; first
         [ discriminate X
         | split; [tauto|]; eexists; eexists;
           split; [reflexivity|]; split; [reflexivity | discriminate] ]
     | intros [[X | X] [feedback [reason [F [B N]]]]];
       first [ reflexivity | discriminate X | discriminate F
             | injection F as <-; simpl in B;
               first [ discriminate B | injection B as <-; now contradiction N ] ] ]).
Qed.

Lemma blocked_iff_403_witness :
  status (cors_response (reply_text sneaker_40 (Some safety_block))) = 403
  <-> (firstText (reply_text sneaker_40 (Some safety_block)) = None
       \/ firstText (reply_text sneaker_40 (Some safety_block)) = Some [])
      /\ exists feedback reason,
           promptFeedback (reply_text sneaker_40 (Some safety_block))
           = Some feedback
           /\ blockReason feedback = Some reason /\ reason <> [].
Proof.
  apply (blocked_iff_403 RouteCors.POST
           (replies (reply_text sneaker_40 (Some safety_block)))
           sample_request (reply_text sneaker_40 (Some safety_block))).
  - right; right; left; reflexivity.
  - eexists; split; reflexivity.
Defined.

Lemma trim_head (t r : jsstring) (c : char) :
  trim t = c :: r -> isSpace c = false.
Proof.
  intros E. destruct (trimEnd_split (trimStart t)) as [w [_ S]].
  fold (trim t) in S. rewrite E in S. exact (trimStart_head _ _ _ S).
Qed.

Lemma trim_last (t p : jsstring) (z : char) :
  trim t = p ++ [z] -> isSpace z = false.
Proof. apply trimEnd_last. Qed.

(** X12: the free-text handler answers every non-empty text with 200
    and does not parse it: [gemini_analysis] is the text trimmed, so it
    neither starts nor ends with white space, and it is empty when the
    text is white space only. *)
Theorem free_text_is_trimmed (g : Provider) (request : Request)
  (reply : GenerateContentResponse) (generatedText : jsstring) :
  answered g (RouteText.POST g request) reply ->
  firstText reply = Some generatedText -> generatedText <> [] ->
  status (response (RouteText.POST g request)) = 200
  /\ field "gemini_analysis" (response (RouteText.POST g request))
     = Some (VString (trim generatedText))
  /\ (forall c r, trim generatedText = c :: r -> isSpace c = false)
  /\ (forall p z, trim generatedText = p ++ [z] -> isSpace z = false)
  /\ (all_spaces generatedText -> trim generatedText = []).
Proof.
  intros HA HT HN.
  destruct (text_answered _ _ _ HA) as [f [_ ->]].
  unfold RouteText.answer. rewrite HT.
  destruct generatedText as [|c t]; [contradiction|].
  split; [reflexivity|]. split; [reflexivity|].
  split; [intros c' r; apply trim_head|].
  split; [intros p z; apply trim_last|].
  intros W. unfold trim. now rewrite (trimStart_nil _ W).
Qed.

Lemma free_text_witness :
  status (response (RouteText.POST
                      (replies (reply_text (lit "  Sneaker, 40 minutes ") None))
                      sample_request)) = 200
  /\ field "gemini_analysis"
       (response (RouteText.POST
                    (replies (reply_text (lit "  Sneaker, 40 minutes ") None))
                    sample_request))
     = Some (VString (trim (lit "  Sneaker, 40 minutes ")))
  /\ (forall c r, trim (lit "  Sneaker, 40 minutes ") = c :: r -> isSpace c = false)
  /\ (forall p z, trim (lit "  Sneaker, 40 minutes ") = p ++ [z] -> isSpace z = false)
  /\ (all_spaces (lit "  Sneaker, 40 minutes ")
      -> trim (lit "  Sneaker, 40 minutes ") = []).
Proof.
  apply (free_text_is_trimmed
           (replies (reply_text (lit "  Sneaker, 40 minutes ") None))
           sample_request (reply_text (lit "  Sneaker, 40 minutes ") None)).
  - eexists; split; reflexivity.
  - reflexivity.
  - discriminate.
Defined.

(** X13: a 200 response echoes the upload: [filename] and [filesize]
    are the name and the (non-zero) size of the file the request
    carries under [file], and [model_used] is the model that was
    called. *)
Theorem success_echoes_upload (POST : Handler) (g : Provider)
  (request : Request) :
  In POST handlers ->
  status (response (POST g request)) = 200 ->
  exists f params,
    upload request = Some f /\ size f <> 0
    /\ calls (POST g request) = [params]
    /\ field "filename" (response (POST g request)) = Some (VString (name f))
    /\ field "filesize" (response (POST g request))
       = Some (VNumber (integer (size f)))
    /\ field "model_used" (response (POST g request))
       = Some (VString (model params)).
Proof.
  intros HP. each_handler HP; unfold_handlers; unfold upload;
    walk; simpl; intros X; try discriminate X;
    eexists; eexists;
    (split; [reflexivity|]; split; [now apply N.eqb_neq|]);
    repeat split.
Qed.

Lemma success_echoes_upload_witness :
  exists f params,
    upload sample_request = Some f /\ size f <> 0
    /\ calls (RouteCors.POST (replies (reply_text sneaker_40 None)) sample_request)
       = [params]
    /\ field "filename" (cors_response (reply_text sneaker_40 None))
       = Some (VString (name f))
    /\ field "filesize" (cors_response (reply_text sneaker_40 None))
       = Some (VNumber (integer (size f)))
    /\ field "model_used" (cors_response (reply_text sneaker_40 None))
       = Some (VString (model params)).
Proof.
  apply (success_echoes_upload RouteCors.POST
           (replies (reply_text sneaker_40 None)) sample_request).
  - right; right; left; reflexivity.
  - reflexivity.
Defined.

Lemma truthy_prop_object (v : JSON) (key : jsstring) :
  truthy (prop v key) = true ->
  exists ms label, v = JObject ms /\ own_prop key ms = Some label.
Proof.
  destruct v as [| | | | |ms]; simpl; try discriminate.
  destruct (own_prop key ms) as [label|] eqn:E; [|discriminate].
  intros _. now exists ms, label.
Qed.

(** X14: a structured handler answers 200 only for an object.  In
    every 200 response the cleaned provider text parsed to a JSON
    object (never an array, a string, a number or null) whose
    [shoe_type] member is truthy; the [shoe_type] that is sent is that
    member as [JSON.stringify] writes it, so it is never [false] and
    never the empty string, and it is [null] only when the member is a
    number too large for a binary64. *)
Theorem success_has_a_label (POST : Handler) (g : Provider)
  (request : Request) (reply : GenerateContentResponse) :
  In POST structured ->
  answered g (POST g request) reply ->
  status (response (POST g request)) = 200 ->
  exists generatedText ms label,
    firstText reply = Some generatedText
    /\ JSON_parse (cleanText generatedText) = Some (JObject ms)
    /\ own_prop SHOE_TYPE ms = Some label
    /\ truthy (Some label) = true
    /\ sent_field "shoe_type" (response (POST g request)) = Some (wire label)
    /\ wire label <> WBool false
    /\ wire label <> WString []
    /\ (wire label = WNull <-> exists d, label = JNumber d /\ nearest d = None).
Proof.
  intros HP HA HS.
  destruct (firstText reply) as [[|c text]|] eqn:HT.
  - exfalso. revert HS.
    apply (silent_status _ _ _ _ (structured_handlers _ HP) HA). now right.
  - assert (V := structured_verdict _ _ _ _ _ HP HA HT ltac:(discriminate)).
    unfold text_verdict in V.
    destruct (parseAnalysis (c :: text)) as [a|] eqn:PA.
    + destruct (parseAnalysis_some _ _ PA) as [HJ [HL _]].
      destruct (truthy_prop_object _ _ HL) as [ms [label [-> HO]]].
      exists (c :: text), ms, label.
      split; [reflexivity|]. split; [exact HJ|]. split; [exact HO|].
      cbn [prop] in HL. rewrite HO in HL.
      split; [exact HL|].
      split.
      { destruct (structured_sent _ _ _ _ _ _ HP HA HT PA) as [-> _].
        cbn [prop]. now rewrite HO. }
      destruct label as [| b | d | l | elems | members]; cbn [wire];
        try discriminate HL.
      * simpl in HL. subst b.
        repeat split; try discriminate. intros [d [X _]]. discriminate X.
      * unfold write_decimal. destruct (nearest d) as [x|] eqn:E.
        -- repeat split; try discriminate. intros [d' [X Y]].
           injection X as <-. rewrite E in Y. discriminate Y.
        -- repeat split; try discriminate. intros _. now exists d.
      * destruct l as [|c' l]; [discriminate HL|].
        repeat split; try discriminate. intros [d [X _]]. discriminate X.
      * repeat split; try discriminate. intros [d [X _]]. discriminate X.
      * repeat split; try discriminate. intros [d [X _]]. discriminate X.
    + apply (f_equal v_status) in V. unfold verdict in V.
      cbn [v_status] in V. rewrite V in HS. discriminate.
  - exfalso. revert HS.
    apply (silent_status _ _ _ _ (structured_handlers _ HP) HA). now left.
Qed.

Lemma success_has_a_label_witness :
  exists generatedText ms label,
    firstText (reply_text label_5 None) = Some generatedText
    /\ JSON_parse (cleanText generatedText) = Some (JObject ms)
    /\ own_prop SHOE_TYPE ms = Some label
    /\ truthy (Some label) = true
    /\ sent_field "shoe_type" (cors_response (reply_text label_5 None))
       = Some (wire label)
    /\ wire label <> WBool false
    /\ wire label <> WString []
    /\ (wire label = WNull <-> exists d, label = JNumber d /\ nearest d = None).
Proof.
  apply (success_has_a_label RouteCors.POST
           (replies (reply_text label_5 None)) sample_request
           (reply_text label_5 None)).
  - right; left; reflexivity.
  - eexists; split; reflexivity.
  - reflexivity.
Defined.

(** X15: the context-aware handler sends and echoes the same readings.
    Whenever it calls the provider, both readings are numbers (not
    NaN), the instruction text is built from exactly them, and a 200
    response sends them as [temperature] and [humidity] the way
    [JSON.stringify] writes a Number: the binary64 when it is finite,
    [null] when the reading is an infinity. *)
Theorem readings_are_echoed (g : Provider) (request : Request)
  (params : GenerateContentParameters) :
  In params (calls (RouteContext.POST g request)) ->
  exists f t h,
    upload request = Some f /\ readings request = Some (t, h)
    /\ isNaN t = false /\ isNaN h = false
    /\ params = request_for (RouteContext.buildPrompt t h) f
    /\ (status (response (RouteContext.POST g request)) = 200 ->
        sent_field "temperature" (response (RouteContext.POST g request))
        = Some (write_number t)
        /\ sent_field "humidity" (response (RouteContext.POST g request))
           = Some (write_number h)).
Proof.
  unfold_handlers. unfold upload, readings.
  walk_request; simpl; intros HI; try contradiction.
  destruct HI as [<- | []].
  apply orb_false_iff in HNaN. destruct HNaN as [Hh Ht].
  eexists; eexists; eexists.
  split; [reflexivity|]. split; [reflexivity|].
  split; [exact Ht|]. split; [exact Hh|]. split; [reflexivity|].
  walk; cbn [status response json]; intros X; try discriminate X.
  destruct (prop a SHOE_TYPE), (prop a MINUTES); split; reflexivity.
Qed.

Lemma readings_are_echoed_witness :
  exists f t h,
    upload (context_request "35" "80") = Some f
    /\ readings (context_request "35" "80") = Some (t, h)
    /\ isNaN t = false /\ isNaN h = false
    /\ request_for (RouteContext.buildPrompt (integer 35) (integer 80)) sample_file
       = request_for (RouteContext.buildPrompt t h) f
    /\ (status (response (RouteContext.POST (replies (reply_text sneaker_40 None))
                            (context_request "35" "80"))) = 200 ->
        sent_field "temperature"
          (response (RouteContext.POST (replies (reply_text sneaker_40 None))
                       (context_request "35" "80")))
        = Some (write_number t)
        /\ sent_field "humidity"
             (response (RouteContext.POST (replies (reply_text sneaker_40 None))
                          (context_request "35" "80")))
           = Some (write_number h)).
Proof.
  apply (readings_are_echoed (replies (reply_text sneaker_40 None))
           (context_request "35" "80")
           (request_for (RouteContext.buildPrompt (integer 35) (integer 80))
              sample_file)).
  left; reflexivity.
Defined.

(** X16: the two handlers with CORS support put the same three CORS
    headers, those of the preflight answer, on every response,
    whatever the path taken; the two versions of [route.ts] set no
    header at all. *)
Theorem cors_headers_everywhere (g : Provider) (request : Request) :
  headers (response (RouteCors.POST g request)) = headers RouteCors.OPTIONS
  /\ headers (response (RouteContext.POST g request))
     = headers RouteContext.OPTIONS
  /\ headers RouteCors.OPTIONS = corsHeaders
  /\ headers RouteContext.OPTIONS = corsHeaders
  /\ headers (response (RouteText.POST g request)) = []
  /\ headers (response (RouteJson.POST g request)) = [].
Proof.
  repeat split; unfold_handlers; walk; reflexivity.
Qed.

(** X17: the handler with CORS headers is the second version of
    [route.ts] with headers added and nothing else changed: on every
    request and provider, the two make the same provider calls and
    return the same status and the same body. *)
Theorem cors_only_adds_headers (g : Provider) (request : Request) :
  calls (RouteCors.POST g request) = calls (RouteJson.POST g request)
  /\ status (response (RouteCors.POST g request))
     = status (response (RouteJson.POST g request))
  /\ body (response (RouteCors.POST g request))
     = body (response (RouteJson.POST g request)).
Proof.
  unfold_handlers.
  change RouteCors.PROMPT with RouteJson.PROMPT.
  walk; repeat split.
Qed.

(** X18: a reading that is only white space counts as zero.  The
    empty value is taken as missing, but any non-empty run of white
    space is truthy and [Number] turns it into 0, so it passes as the
    reading 0. *)
Theorem blank_reading_is_zero (ws : jsstring) :
  all_spaces ws -> ws <> [] ->
  RouteContext.optional_number (Some (EntryString ws)) = Some (integer 0)
  /\ RouteContext.optional_number (Some (EntryString [])) = None.
Proof.
  intros W N. split; [|reflexivity].
  destruct ws as [|c r]; [contradiction|].
  unfold RouteContext.optional_number, entry_truthy, Number,
    StringToNumber.convert.
  unfold trim. now rewrite (trimStart_nil _ W).
Qed.

Lemma blank_reading_witness :
  RouteContext.optional_number (Some (EntryString [32; 9])) = Some (integer 0)
  /\ RouteContext.optional_number (Some (EntryString [])) = None.
Proof.
  apply (blank_reading_is_zero [32; 9]).
  - repeat constructor.
  - discriminate.
Defined.

(** * The inline data *)

Lemma digit_value (n : N) :
  n < 64 -> base64_value (Base64.digit n) = Some n.
Proof.
  intros H.
  assert (A : forallb (fun k => match base64_value (Base64.digit k) with
                                | Some m => m =? k
                                | None => false
                                end)
                      (map N.of_nat (seq 0 64)) = true) by (vm_compute; reflexivity).
  rewrite forallb_forall in A.
  specialize (A n).
  assert (I : In n (map N.of_nat (seq 0 64))).
  { rewrite <- (N2Nat.id n). apply in_map. apply in_seq. lia. }
  specialize (A I).
  destruct (base64_value (Base64.digit n)) as [m|]; [|discriminate].
  apply N.eqb_eq in A. now subst.
Qed.

Lemma digit_is_no_padding (n : N) : (Base64.digit n =? 61) = false.
Proof.
  apply N.eqb_neq. unfold Base64.digit.
  destruct (N.ltb_spec n 26); [lia|].
  destruct (N.ltb_spec n 52); [lia|].
  destruct (N.ltb_spec n 62); [lia|].
  destruct (n =? 62); lia.
Qed.

Lemma decode_group (x y z w : N) (r : jsstring) :
  x < 64 -> y < 64 -> z < 64 -> w < 64 ->
  base64_decode (Base64.digit x :: Base64.digit y :: Base64.digit z
                   :: Base64.digit w :: r)
  = match base64_decode r with
    | Some bs =>
        Some (x * 4 + y / 16 :: y mod 16 * 16 + z / 4 :: z mod 4 * 64 + w :: bs)
    | None => None
    end.
Proof.
  intros Hx Hy Hz Hw. cbn [base64_decode].
  rewrite !digit_value, !digit_is_no_padding by assumption.
  reflexivity.
Qed.

Lemma decode_encode (bs : list N) :
  Forall (fun b => b < 256) bs ->
  base64_decode (Base64.encode bs) = Some bs.
Proof.
  assert (G : forall n bs, (length bs <= n)%nat ->
                Forall (fun b => b < 256) bs ->
                base64_decode (Base64.encode bs) = Some bs).
  { clear bs. induction n as [|n IH]; intros bs L F.
    - destruct bs; [reflexivity | simpl in L; lia].
    - destruct bs as [|a [|b [|c r]]].
      + reflexivity.
      + inversion F as [|? ? Ha _]; subst.
        cbn [Base64.encode base64_decode].
        rewrite !digit_value by (zify; Z.to_euclidean_division_equations; lia).
        cbn. do 2 f_equal. zify; Z.to_euclidean_division_equations; lia.
      + inversion F as [|? ? Ha F1]; subst.
        inversion F1 as [|? ? Hb _]; subst.
        cbn [Base64.encode base64_decode].
        rewrite !digit_value by (zify; Z.to_euclidean_division_equations; lia).
        rewrite digit_is_no_padding. cbn.
        f_equal. f_equal; [|f_equal];
          zify; Z.to_euclidean_division_equations; lia.
      + inversion F as [|? ? Ha F1]; subst.
        inversion F1 as [|? ? Hb F2]; subst.
        inversion F2 as [|? ? Hc F3]; subst.
        cbn [Base64.encode].
        rewrite decode_group by (zify; Z.to_euclidean_division_equations; lia).
        rewrite (IH r ltac:(simpl in L; lia) F3).
        f_equal. f_equal; [|f_equal; [|f_equal]];
          zify; Z.to_euclidean_division_equations; lia. }
  apply (G (length bs)). lia.
Qed.

(** X19: the inline part loses nothing of the file.  For a file of
    bytes, the data of the part decodes (base64) to exactly the file's
    bytes, and the media type is the declared one, or [image/jpeg] when
    none was declared; it is never empty. *)
Theorem inline_data_keeps_the_file (file : File) :
  Forall (fun b => b < 256) (bytes file) ->
  exists data mimeType,
    fileToGenerativePart file = InlineData data mimeType
    /\ base64_decode data = Some (bytes file)
    /\ mimeType <> []
    /\ (type file <> [] -> mimeType = type file)
    /\ (type file = [] -> mimeType = lit "image/jpeg").
Proof.
  intros F. unfold fileToGenerativePart.
  eexists; eexists. split; [reflexivity|].
  split; [now apply decode_encode|].
  destruct (type file) as [|c r]; repeat split;
    first [discriminate | congruence].
Qed.

Lemma inline_data_witness :
  exists data mimeType,
    fileToGenerativePart sample_file = InlineData data mimeType
    /\ base64_decode data = Some (bytes sample_file)
    /\ mimeType <> []
    /\ (type sample_file <> [] -> mimeType = type sample_file)
    /\ (type sample_file = [] -> mimeType = lit "image/jpeg").
Proof.
  apply (inline_data_keeps_the_file sample_file).
  repeat constructor.
Defined.

(** * Success *)

(** X20: a structured handler answers 200 exactly when the reply has a
    text that the [try] block accepts; and a response never carries
    both a label and the raw text: [gemini_raw_output] comes with 500
    only, [shoe_type] with 200 only. *)
Theorem success_iff_normalized (POST : Handler) (g : Provider)
  (request : Request) (reply : GenerateContentResponse) :
  In POST structured ->
  answered g (POST g request) reply ->
  (status (response (POST g request)) = 200
   <-> exists generatedText analysisObject,
         firstText reply = Some generatedText
         /\ parseAnalysis generatedText = Some analysisObject)
  /\ (field "gemini_raw_output" (response (POST g request)) <> None ->
      status (response (POST g request)) = 500
      /\ field "shoe_type" (response (POST g request)) = None)
  /\ (field "shoe_type" (response (POST g request)) <> None ->
      status (response (POST g request)) = 200
      /\ field "gemini_raw_output" (response (POST g request)) = None).
Proof.
  intros HP [params [Hcall Hres]]. revert Hcall Hres.
  destruct HP as [<- | [<- | [<- | []]]]; unfold_handlers;
    walk_request; simpl; intros Hcall Hres; try discriminate Hcall;
    injection Hcall as <-; rewrite Hres; walk; unfold field; simpl;
    (split;
     [ split;
       [ intros X;
         first [ discriminate X
               | eexists; eexists; split; [reflexivity | eassumption] ]
       | intros [text' [a' [T P]]];
         first [ reflexivity | discriminate T
               | injection T as <-; first [congruence | discriminate P] ] ]
     | split; intros X;
       first [ now contradiction X | split; reflexivity ] ]).
Qed.

Lemma success_iff_normalized_witness :
  (status (cors_response (reply_text minutes_as_text None)) = 200
   <-> exists generatedText analysisObject,
         firstText (reply_text minutes_as_text None) = Some generatedText
         /\ parseAnalysis generatedText = Some analysisObject)
  /\ (field "gemini_raw_output" (cors_response (reply_text minutes_as_text None))
      <> None ->
      status (cors_response (reply_text minutes_as_text None)) = 500
      /\ field "shoe_type" (cors_response (reply_text minutes_as_text None)) = None)
  /\ (field "shoe_type" (cors_response (reply_text minutes_as_text None)) <> None ->
      status (cors_response (reply_text minutes_as_text None)) = 200
      /\ field "gemini_raw_output" (cors_response (reply_text minutes_as_text None))
         = None).
Proof.
  apply (success_iff_normalized RouteCors.POST
           (replies (reply_text minutes_as_text None)) sample_request
           (reply_text minutes_as_text None)).
  - right; left; reflexivity.
  - eexists; split; reflexivity.
Defined.

(** X21: nothing else of the provider's object is passed on.  The body
    of a 200 response of a structured handler has exactly the keys the
    handler writes, in its order; members the provider adds beside the
    two fields never reach the caller. *)
Theorem success_body_has_fixed_keys (POST : Handler) (g : Provider)
  (request : Request) :
  In POST structured ->
  status (response (POST g request)) = 200 ->
  map fst (body (response (POST g request)))
  = ["filename"; "filesize"; "shoe_type"; "recommended_time_minutes";
     "model_used"]%string
  \/ map fst (body (response (POST g request)))
     = ["filename"; "filesize"; "shoe_type"; "recommended_time_minutes";
        "temperature"; "humidity"; "model_used"]%string.
Proof.
  intros HP. destruct HP as [<- | [<- | [<- | []]]]; unfold_handlers;
    walk; simpl; intros X; try discriminate X; tauto.
Qed.

Lemma success_body_witness :
  map fst (body (cors_response
                   (reply_text (q "{'shoe_type': 'Boot', 'recommended_time_minutes': 55, 'note': 'x'}")
                      None)))
  = ["filename"; "filesize"; "shoe_type"; "recommended_time_minutes";
     "model_used"]%string
  \/ map fst (body (cors_response
                      (reply_text (q "{'shoe_type': 'Boot', 'recommended_time_minutes': 55, 'note': 'x'}")
                         None)))
     = ["filename"; "filesize"; "shoe_type"; "recommended_time_minutes";
        "temperature"; "humidity"; "model_used"]%string.
Proof.
  apply (success_body_has_fixed_keys RouteCors.POST
           (replies (reply_text (q "{'shoe_type': 'Boot', 'recommended_time_minutes': 55, 'note': 'x'}")
                       None))
           sample_request).
  - right; left; reflexivity.
  - reflexivity.
Defined.

(** * What is sent, at work *)

Example nearest_binary64 :
  map nearest
      [{| mant := 1000; expo := 0 |};
       {| mant := 40; expo := 0 |};
       {| mant := 1; expo := -1 |};
       {| mant := -25; expo := -1 |};
       {| mant := 1; expo := 23 |};
       {| mant := 9007199254740993; expo := 0 |};
       {| mant := 1; expo := 400 |};
       {| mant := -1; expo := 400 |};
       {| mant := 1; expo := -400 |};
       {| mant := 5; expo := -324 |};
       {| mant := 17976931348623157; expo := 292 |};
       {| mant := 179769313486231580793; expo := 288 |}]%Z
  = [Some {| significand := 8796093022208000; exponent := -43 |};
     Some {| significand := 5629499534213120; exponent := -47 |};
     Some {| significand := 7205759403792794; exponent := -56 |};
     Some {| significand := -5629499534213120; exponent := -51 |};
     Some {| significand := 5960464477539062; exponent := 24 |};
     Some {| significand := 4503599627370496; exponent := 1 |};
     None;
     None;
     Some {| significand := 0; exponent := 0 |};
     Some {| significand := 1; exponent := -1074 |};
     Some {| significand := 9007199254740991; exponent := 971 |};
     Some {| significand := 9007199254740991; exponent := 971 |}]%Z.
Proof. vm_compute. reflexivity. Qed.

(** The zero test of [truthy] agrees with [nearest] on both sides of
    the underflow threshold. *)
Example zero_test_agrees :
  map (fun d => (rounds_to_zero d, nearest d))
      [{| mant := 1; expo := -400 |}; {| mant := 24703282292062327; expo := -340 |};
       {| mant := 24703282292062328; expo := -340 |}; {| mant := 5; expo := -324 |}]%Z
  = [(true, Some {| significand := 0; exponent := 0 |});
     (true, Some {| significand := 0; exponent := 0 |});
     (false, Some {| significand := 1; exponent := -1074 |});
     (false, Some {| significand := 1; exponent := -1074 |})]%Z.
Proof. vm_compute. reflexivity. Qed.

(** Minutes too large for a binary64 pass the [typeof] test and are
    sent as [null]. *)
Example overflowing_minutes_are_null :
  status (cors_response
            (reply_text (q "{'shoe_type': 'x', 'recommended_time_minutes': 1e400}") None))
  = 200
  /\ sent_field "recommended_time_minutes"
       (cors_response
          (reply_text (q "{'shoe_type': 'x', 'recommended_time_minutes': 1e400}") None))
     = Some WNull.
Proof. split; vm_compute; reflexivity. Qed.

(** So does a label that is such a number. *)
Example overflowing_label_is_null :
  status (cors_response
            (reply_text (q "{'shoe_type': 1e400, 'recommended_time_minutes': 40}") None))
  = 200
  /\ sent_field "shoe_type"
       (cors_response
          (reply_text (q "{'shoe_type': 1e400, 'recommended_time_minutes': 40}") None))
     = Some WNull.
Proof. split; vm_compute; reflexivity. Qed.

(** The reading "Infinity" is a number for [isNaN] and is sent as
    [null]. *)
Example infinite_reading_is_null :
  status (response (RouteContext.POST (replies (reply_text sneaker_40 None))
                      (context_request "Infinity" "80"))) = 200
  /\ sent_field "temperature"
       (response (RouteContext.POST (replies (reply_text sneaker_40 None))
                    (context_request "Infinity" "80")))
     = Some WNull
  /\ sent_field "humidity"
       (response (RouteContext.POST (replies (reply_text sneaker_40 None))
                    (context_request "Infinity" "80")))
     = Some (WNumber {| significand := 5629499534213120; exponent := -46 |}).
Proof. repeat split; vm_compute; reflexivity. Qed.

(** The members of an object are written in the order of its own keys. *)
Example members_in_key_order :
  option_map wire (JSON_parse (q "{'b': true, '2': false, '1': null, '01': 'x'}"))
  = Some (WObject [(lit "1", WNull); (lit "2", WBool false);
                   (lit "b", WBool true); (lit "01", WString (lit "x"))]).
Proof. vm_compute. reflexivity. Qed.

(** A member whose value is [undefined] is not sent: a blocked reply
    without ratings has no [safety_ratings]. *)
Example undefined_is_left_out :
  field "safety_ratings"
    (cors_response (reply_empty (Some {| blockReason := Some (lit "OTHER");
                                         safetyRatings := None |})))
  = Some VUndefined
  /\ map fst (sent (cors_response
                      (reply_empty (Some {| blockReason := Some (lit "OTHER");
                                            safetyRatings := None |}))))
     = ["error"%string].
Proof. split; vm_compute; reflexivity. Qed.
